(** * app-render: segment addressing and render orchestration

    A shallow embedding of
    [packages/next/src/server/app-render/app-render.tsx]:
    the dynamic-segment resolver ([findDynamicParamFromRouterState],
    [makeGetDynamicParamFromSegment]), the Flight generator entry point
    ([generateFlight]) and the render orchestrator
    ([renderToHTMLOrFlightImpl] with its [bodyResult] closure and the
    error-recovery path).

    Conventions.
    - A JavaScript string is the list of its UTF-16 code units, each a [Z]
      in [0, 65535]; [js "..."] turns an ASCII literal into such a list.
    - [encodeURIComponent] and [decodeURIComponent] are the ECMAScript
      built-ins (abstract operations Encode and Decode); a thrown
      [URIError] is [None].
    - Mutable objects the orchestrator shares with its caller and with the
      closures it creates (the response, the static-generation store, the
      captured-error arrays, the result metadata, query objects, transform
      streams) live in an explicit [State]; a rejected promise or a thrown
      exception is the [Throw] completion.
    - Collaborators that are imported from other modules are the fields of
      a [World] record.  What they render is kept symbolically (the
      element, stream and payload types record what was asked for); whether
      they succeed, and which errors they hand to the error handlers, is
      decided by the [World]. *)

From Stdlib Require Import ZArith List Lia String Ascii Bool.
From stdpp Require Import base option list gmap strings.

Local Open Scope Z_scope.
Set Warnings "-register-all".

(** ** JavaScript strings *)

Abbreviation jsstring := (list Z).

Definition js (s : string) : jsstring :=
  map (fun a => Z.of_nat (nat_of_ascii a)) (list_ascii_of_string s).

(** Every element is a 16-bit code unit. *)
Definition isCodeUnit (c : Z) : bool := (0 <=? c) && (c <? 65536).
Definition isString (s : jsstring) : bool := forallb isCodeUnit s.

Definition jsstring_eqb (a b : jsstring) : bool := bool_decide (a = b).

(** [String.prototype.startsWith]. *)
Fixpoint startsWith (s p : jsstring) : bool :=
  match p, s with
  | [], _ => true
  | _ :: _, [] => false
  | x :: p', y :: s' => (x =? y) && startsWith s' p'
  end.

(** [String.prototype.includes]. *)
Fixpoint includes (s p : jsstring) : bool :=
  startsWith s p ||
  match s with
  | [] => false
  | _ :: s' => includes s' p
  end.

(** [Array.prototype.join]. *)
Fixpoint join (sep : jsstring) (l : list jsstring) : jsstring :=
  match l with
  | [] => []
  | [x] => x
  | x :: rest => x ++ sep ++ join sep rest
  end.

Definition endsWith (s p : jsstring) : Prop := exists pre, s = pre ++ p.

(** *** encodeURIComponent *)

(** The characters [encodeURIComponent] leaves alone:
    [A-Z a-z 0-9 - _ . ! ~ * ' ( )]. *)
Definition uriUnescaped (c : Z) : bool :=
  ((65 <=? c) && (c <=? 90)) || ((97 <=? c) && (c <=? 122)) ||
  ((48 <=? c) && (c <=? 57)) ||
  existsb (Z.eqb c) [45; 95; 46; 33; 126; 42; 39; 40; 41].

Definition isLeadingSurrogate (c : Z) : bool := (0xD800 <=? c) && (c <=? 0xDBFF).
Definition isTrailingSurrogate (c : Z) : bool := (0xDC00 <=? c) && (c <=? 0xDFFF).

(** UTF16SurrogatePairToCodePoint. *)
Definition surrogatePairToCodePoint (lead trail : Z) : Z :=
  (lead - 0xD800) * 0x400 + (trail - 0xDC00) + 0x10000.

(** The UTF-8 transformation of a code point into one to four octets. *)
Definition utf8Encode (cp : Z) : list Z :=
  if cp <? 0x80 then [cp]
  else if cp <? 0x800 then [0xC0 + cp / 64; 0x80 + cp mod 64]
  else if cp <? 0x10000 then
    [0xE0 + cp / 4096; 0x80 + (cp / 64) mod 64; 0x80 + cp mod 64]
  else
    [0xF0 + cp / 262144; 0x80 + (cp / 4096) mod 64;
     0x80 + (cp / 64) mod 64; 0x80 + cp mod 64].

(** One upper-case hexadecimal digit. *)
Definition hexDigit (d : Z) : Z := if d <? 10 then 48 + d else 55 + d.

(** ["%XX"] for one octet. *)
Definition pctOctet (b : Z) : jsstring := [37; hexDigit (b / 16); hexDigit (b mod 16)].

Definition pctOctets (bs : list Z) : jsstring := concat (map pctOctet bs).

(** Encode(string, unescapedSet) with the set of [encodeURIComponent];
    [None] is the [URIError] raised at an unpaired surrogate. *)
Fixpoint encodeURIComponent (s : jsstring) : option jsstring :=
  match s with
  | [] => Some []
  | c :: rest =>
    if uriUnescaped c then cons c <$> encodeURIComponent rest
    else if isLeadingSurrogate c then
      match rest with
      | c2 :: rest' =>
        if isTrailingSurrogate c2 then
          app (pctOctets (utf8Encode (surrogatePairToCodePoint c c2)))
            <$> encodeURIComponent rest'
        else None
      | [] => None
      end
    else if isTrailingSurrogate c then None
    else app (pctOctets (utf8Encode c)) <$> encodeURIComponent rest
  end.

(** [String.prototype.isWellFormed]: no unpaired surrogate. *)
Fixpoint isWellFormed (s : jsstring) : bool :=
  match s with
  | [] => true
  | c :: rest =>
    if isLeadingSurrogate c then
      match rest with
      | c2 :: rest' => isTrailingSurrogate c2 && isWellFormed rest'
      | [] => false
      end
    else negb (isTrailingSurrogate c) && isWellFormed rest
  end.

(** *** decodeURIComponent *)

Definition hexValue (c : Z) : option Z :=
  if (48 <=? c) && (c <=? 57) then Some (c - 48)
  else if (65 <=? c) && (c <=? 70) then Some (c - 55)
  else if (97 <=? c) && (c <=? 102) then Some (c - 87)
  else None.

Definition ParseHexOctet (h1 h2 : Z) : option Z :=
  match hexValue h1, hexValue h2 with
  | Some a, Some b => Some (16 * a + b)
  | _, _ => None
  end.

(** The number of leading 1 bits of an octet (5 stands for "more than 4"). *)
Definition leadingOnes (b : Z) : nat :=
  if b <? 0x80 then 0%nat
  else if b <? 0xC0 then 1%nat
  else if b <? 0xE0 then 2%nat
  else if b <? 0xF0 then 3%nat
  else if b <? 0xF8 then 4%nat
  else 5%nat.

(** Reads [n] further ["%XX"] escapes. *)
Fixpoint readContinuation (n : nat) (s : jsstring) : option (list Z * jsstring) :=
  match n with
  | O => Some ([], s)
  | S n' =>
    match s with
    | 37 :: h1 :: h2 :: rest =>
      match ParseHexOctet h1 h2 with
      | Some b =>
        match readContinuation n' rest with
        | Some (bs, rest') => Some (b :: bs, rest')
        | None => None
        end
      | None => None
      end
    | _ => None
    end
  end.

Definition isContinuationOctet (b : Z) : bool := (0x80 <=? b) && (b <=? 0xBF).

(** The code point of a multi-octet sequence, [None] unless the octets are
    a valid (shortest-form, non-surrogate, at most U+10FFFF) UTF-8
    encoding. *)
Definition utf8Decode (octets : list Z) : option Z :=
  match octets with
  | [b0; b1] =>
    let v := (b0 - 0xC0) * 64 + (b1 - 0x80) in
    if isContinuationOctet b1 && (0x80 <=? v) then Some v else None
  | [b0; b1; b2] =>
    let v := (b0 - 0xE0) * 4096 + (b1 - 0x80) * 64 + (b2 - 0x80) in
    if isContinuationOctet b1 && isContinuationOctet b2 && (0x800 <=? v)
       && negb ((0xD800 <=? v) && (v <=? 0xDFFF))
    then Some v else None
  | [b0; b1; b2; b3] =>
    let v := (b0 - 0xF0) * 262144 + (b1 - 0x80) * 4096
             + (b2 - 0x80) * 64 + (b3 - 0x80) in
    if isContinuationOctet b1 && isContinuationOctet b2
       && isContinuationOctet b3 && (0x10000 <=? v) && (v <=? 0x10FFFF)
    then Some v else None
  | _ => None
  end.

(** UTF16EncodeCodePoint. *)
Definition utf16EncodeCodePoint (v : Z) : jsstring :=
  if v <=? 0xFFFF then [v]
  else [(v - 0x10000) / 1024 + 0xD800; (v - 0x10000) mod 1024 + 0xDC00].

(** Decode(string, preserveEscapeSet) with the empty set of
    [decodeURIComponent].  Every iteration consumes at least one code
    unit, so [length s] iterations are enough; [None] is [URIError]. *)
Fixpoint Decode (fuel : nat) (s : jsstring) : option jsstring :=
  match s with
  | [] => Some []
  | c :: rest =>
    match fuel with
    | O => None
    | S fuel' =>
      if c =? 37 then
        match rest with
        | h1 :: h2 :: rest2 =>
          match ParseHexOctet h1 h2 with
          | Some b =>
            match leadingOnes b with
            | O => cons b <$> Decode fuel' rest2
            | S O => None
            | S (S (S (S (S _)))) => None
            | S n' =>
              match readContinuation n' rest2 with
              | Some (bs, rest3) =>
                match utf8Decode (b :: bs) with
                | Some v => app (utf16EncodeCodePoint v) <$> Decode fuel' rest3
                | None => None
                end
              | None => None
              end
            end
          | None => None
          end
        | _ => None
        end
      else cons c <$> Decode fuel' rest
    end
  end.

Definition decodeURIComponent (s : jsstring) : option jsstring :=
  Decode (length s) s.

(** An octet of a UTF-8 encoding. *)
Definition isOctet (b : Z) : Prop := 0 <= b < 256.

(** A Unicode scalar value: a code point that is not a surrogate. *)
Definition isScalarValue (cp : Z) : Prop :=
  0 <= cp <= 0x10FFFF /\ ~ (0xD800 <= cp <= 0xDFFF).

(** ** Errors and completions *)

(** The serialized cookies of a [ResponseCookies] object. *)
Abbreviation ResponseCookies := (list jsstring).

(** A thrown value, with the properties the orchestrator inspects. *)
Record Error := mkError {
  err_code : option jsstring;            (* err.code *)
  err_message : option jsstring;         (* err.message *)
  err_digest : option jsstring;          (* err.digest *)
  err_postpone : bool;                   (* err.$$typeof === Symbol.for('react.postpone') *)
  err_mutableCookies : option ResponseCookies  (* err.mutableCookies *)
}.

Definition plainError (msg : jsstring) : Error :=
  mkError None (Some msg) None false None.

(** What [encodeURIComponent] throws. *)
Definition URIError : Error := plainError (js "URI malformed").

(** The outcome of evaluating a call: a value, or a thrown error (a
    rejected promise, once awaited). *)
Inductive Completion (A : Type) : Type :=
| Normal (a : A)
| Throw (e : Error).
Arguments Normal {A} a.
Arguments Throw {A} e.

(** ** Segment addressing *)

(** [Segment = string | [param, value, type]]. *)
Inductive Segment :=
| SegStr (s : jsstring)
| SegDyn (param value type : jsstring).

(** [Array.isArray] on a segment. *)
Definition isArraySegment (s : Segment) : bool :=
  match s with SegStr _ => false | SegDyn _ _ _ => true end.

(** [FlightRouterState = [segment, parallelRoutes, url?, refresh?, isRootLayout?]];
    the parallel routes are kept in property order, the order in which
    [Object.values] yields them. *)
Inductive FlightRouterState :=
| RouterState (segment : Segment)
              (parallelRoutes : list (jsstring * FlightRouterState))
              (url : option jsstring) (refresh : option jsstring)
              (isRootLayout : option bool).

Definition stateSegment (st : FlightRouterState) : Segment :=
  match st with RouterState seg _ _ _ _ => seg end.

Definition stateParallelRoutes (st : FlightRouterState) : list (jsstring * FlightRouterState) :=
  match st with RouterState _ routes _ _ _ => routes end.

(** A value of [params[key]] and of [DynamicParam.value]. *)
Inductive ParamValue :=
| PString (s : jsstring)
| PArray (l : list jsstring).

(** The result of [GetDynamicParamFromSegment]; [dp_value = None] is
    [null]. *)
Record DynamicParam := mkDynamicParam {
  dp_param : jsstring;
  dp_value : option ParamValue;
  dp_treeSegment : Segment;
  dp_type : jsstring
}.

(** [{ param, type }] as returned by [getSegmentParam]. *)
Record SegmentParam := mkSegmentParam {
  sp_param : jsstring;
  sp_type : jsstring
}.

(** The helpers of segment addressing that are imported from
    [./get-segment-param], [./get-short-dynamic-param-type] and
    [../../client/components/match-segments]. *)
Record SegmentHelpers := {
  getSegmentParam : jsstring -> option SegmentParam;
  canSegmentBeOverridden : jsstring -> Segment -> bool;
  dynamicParamTypes : jsstring -> jsstring;
  getShortDynamicParamType : jsstring -> jsstring
}.

Section SegmentAddressing.
Variable hs : SegmentHelpers.

(** The body of [findDynamicParamFromRouterState] for a router state
    that is present.  [segment] is a string, so [Array.isArray(segment)]
    is [false]. *)
Fixpoint findInRouterState (st : FlightRouterState) (segment : jsstring)
  : option DynamicParam :=
  match st with
  | RouterState treeSegment parallelRoutes _ _ _ =>
    if canSegmentBeOverridden hs segment treeSegment then
      if negb (isArraySegment treeSegment) || false then None
      else
        match treeSegment with
        | SegDyn p v t =>
          Some (mkDynamicParam p (Some (PString v)) treeSegment t)
        | SegStr _ => None
        end
    else
      (fix values (routes : list (jsstring * FlightRouterState)) :=
         match routes with
         | [] => None
         | (_, parallelRouterState) :: routes' =>
           match findInRouterState parallelRouterState segment with
           | Some maybeDynamicParam => Some maybeDynamicParam
           | None => values routes'
           end
         end) parallelRoutes
  end.

Definition findDynamicParamFromRouterState
    (providedFlightRouterState : option FlightRouterState)
    (segment : jsstring) : option DynamicParam :=
  match providedFlightRouterState with
  | None => None
  | Some st => findInRouterState st segment
  end.

(** [value.map((i) => encodeURIComponent(i))]: the first element that
    cannot be encoded throws. *)
Fixpoint encodeAll (l : list jsstring) : option (list jsstring) :=
  match l with
  | [] => Some []
  | x :: rest =>
    match encodeURIComponent x with
    | Some x' => cons x' <$> encodeAll rest
    | None => None
    end
  end.

Definition NEXT_EMPTY_PARAM : jsstring := js "__NEXT_EMPTY_PARAM__".

(** [!value] for [value : undefined | string | string[]]: an array is
    truthy, the empty string is not. *)
Definition falsy (value : option ParamValue) : bool :=
  match value with
  | None => true
  | Some (PString s) => bool_decide (s = [])
  | Some (PArray _) => false
  end.

(** The closure returned by [makeGetDynamicParamFromSegment]. *)
Definition makeGetDynamicParamFromSegment
    (params : gmap jsstring ParamValue)
    (providedFlightRouterState : option FlightRouterState)
    (segment : jsstring) : Completion (option DynamicParam) :=
  match getSegmentParam hs segment with
  | None => Normal None
  | Some segmentParam =>
    let key := sp_param segmentParam in
    let value := params !! key in
    let value :=
      match value with
      | Some (PString s) =>
        if bool_decide (s = NEXT_EMPTY_PARAM) then None else value
      | _ => value
      end in
    let encoded : Completion (option ParamValue) :=
      match value with
      | Some (PArray l) =>
        match encodeAll l with
        | Some l' => Normal (Some (PArray l'))
        | None => Throw URIError
        end
      | Some (PString s) =>
        match encodeURIComponent s with
        | Some s' => Normal (Some (PString s'))
        | None => Throw URIError
        end
      | None => Normal None
      end in
    match encoded with
    | Throw e => Throw e
    | Normal value =>
      if falsy value then
        if bool_decide (sp_type segmentParam = js "optional-catchall") then
          let type := dynamicParamTypes hs (sp_type segmentParam) in
          Normal (Some (mkDynamicParam key None (SegDyn key [] type) type))
        else
          Normal (findDynamicParamFromRouterState providedFlightRouterState segment)
      else
        let type := getShortDynamicParamType hs (sp_type segmentParam) in
        let shown :=
          match value with
          | Some (PArray l) => join (js "/") l
          | Some (PString s) => s
          | None => []
          end in
        Normal (Some (mkDynamicParam key value (SegDyn key shown type) type))
    end
  end.

(** The nodes of a router state in the order of a depth-first walk:
    a node before its parallel routes, the routes in property order. *)
Fixpoint routerStateNodes (st : FlightRouterState) : list FlightRouterState :=
  match st with
  | RouterState _ parallelRoutes _ _ _ =>
    st :: (fix values (routes : list (jsstring * FlightRouterState)) :=
             match routes with
             | [] => []
             | (_, child) :: routes' => routerStateNodes child ++ values routes'
             end) parallelRoutes
  end.



End SegmentAddressing.

(** What a DynamicParam shows in the router tree for its value:
    [Array.isArray(value) ? value.join('/') : value], and the empty
    string for null. *)
Definition shownValue (value : option ParamValue) : jsstring :=
  match value with
  | Some (PString s) => s
  | Some (PArray l) => join (js "/") l
  | None => []
  end.

(** ** Requests, responses and the per-request objects *)

(** A header or query value: [string | string[]]. *)
Inductive HeaderValue :=
| HString (s : jsstring)
| HArray (l : list jsstring).

(** [String.prototype.toLowerCase] on ASCII letters, which is all that
    header names contain. *)
Definition toLowerCase (s : jsstring) : jsstring :=
  map (fun c => if (65 <=? c) && (c <=? 90) then c + 32 else c) s.

Record IncomingMessage := {
  req_headers : gmap jsstring HeaderValue
}.

(** [res.statusCode] and the headers set with [res.setHeader], which are
    kept under their lower-cased names. *)
Record ServerResponse := {
  statusCode : Z;
  res_headers : gmap jsstring HeaderValue
}.

Definition setStatusCode (code : Z) (res : ServerResponse) : ServerResponse :=
  {| statusCode := code; res_headers := res_headers res |}.

Definition setHeader (name : jsstring) (value : HeaderValue) (res : ServerResponse)
  : ServerResponse :=
  {| statusCode := statusCode res;
     res_headers := <[toLowerCase name := value]> (res_headers res) |}.

Definition getHeader (res : ServerResponse) (name : jsstring) : option HeaderValue :=
  res_headers res !! toLowerCase name.

(** [LoaderTree = [segment, parallelRoutes, components]]; the components
    are a reference into the module loader. *)
Inductive LoaderTree :=
| LoaderTreeNode (segment : jsstring)
                 (parallelRoutes : list (jsstring * LoaderTree))
                 (components : nat).

Definition createNotFoundLoaderTree (loaderTree : LoaderTree) : LoaderTree :=
  match loaderTree with
  | LoaderTreeNode _ _ components => LoaderTreeNode [] [] components
  end.

(** The fields of [RenderOpts] the orchestrator branches on or passes on;
    [tree] is [ComponentMod.tree]. *)
Record RenderOpts := {
  dev : bool;
  supportsDynamicHTML : option bool;
  buildId : jsstring;
  assetPrefix : option jsstring;
  basePath : option jsstring;
  enableTainting : bool;
  nextExport : bool;
  appUsingSizeAdjust : bool;
  ppr : bool;
  postponed : option jsstring;
  params : option (gmap jsstring ParamValue);
  tree : LoaderTree
}.

(** Truthiness of an optional string. *)
Definition truthy (s : option jsstring) : bool :=
  match s with Some (_ :: _) => true | _ => false end.

(** [false | number]. *)
Inductive Revalidate :=
| RevalidateFalse
| RevalidateSeconds (n : Z).

#[global] Instance Revalidate_eq_dec : EqDecision Revalidate.
Proof. solve_decision. Defined.

Record StaticGenerationStore := {
  urlPathname : jsstring;
  isStaticGeneration : bool;
  revalidate : option Revalidate;
  forceStatic : option bool;
  tags : option (list jsstring);
  fetchMetrics : option (list nat);
  pendingRevalidates : option (list nat);
  dynamicUsageDescription : option jsstring;
  dynamicUsageStack : option jsstring
}.

Definition setRevalidate (r : option Revalidate) (st : StaticGenerationStore)
  : StaticGenerationStore :=
  {| urlPathname := urlPathname st; isStaticGeneration := isStaticGeneration st;
     revalidate := r; forceStatic := forceStatic st; tags := tags st;
     fetchMetrics := fetchMetrics st; pendingRevalidates := pendingRevalidates st;
     dynamicUsageDescription := dynamicUsageDescription st;
     dynamicUsageStack := dynamicUsageStack st |}.

Definition setFetchMetrics (m : option (list nat)) (st : StaticGenerationStore)
  : StaticGenerationStore :=
  {| urlPathname := urlPathname st; isStaticGeneration := isStaticGeneration st;
     revalidate := revalidate st; forceStatic := forceStatic st; tags := tags st;
     fetchMetrics := m; pendingRevalidates := pendingRevalidates st;
     dynamicUsageDescription := dynamicUsageDescription st;
     dynamicUsageStack := dynamicUsageStack st |}.

(** ** What the collaborators are asked to produce *)

(** The identity of a [TransformStream] object. *)
Abbreviation StreamId := nat.

(** The address of a query object. *)
Abbreviation loc := nat.

Abbreviation QueryObject := (gmap jsstring HeaderValue).

(** [providedSearchParams]: the bail-out proxy during static generation,
    the (copied) query object otherwise. *)
Inductive SearchParams :=
| SearchParamsBailoutProxy
| SearchParamsQuery (query : loc).

Record AppRenderContext := {
  ctx_renderOpts : RenderOpts;
  getDynamicParamFromSegment : jsstring -> Completion (option DynamicParam);
  ctx_query : loc;
  isPrefetch : bool;
  providedSearchParams : SearchParams;
  requestTimestamp : Z;
  appUsingSizeAdjustment : bool;
  providedFlightRouterState : option FlightRouterState;
  requestId : jsstring;
  defaultRevalidate : Revalidate;
  pagePath : jsstring;
  ctx_assetPrefix : jsstring;
  isNotFoundPath : bool
}.

(** An entry of a [FlightDataPath]. *)
Inductive FlightItem :=
| ItemSegment (s : Segment)
| ItemData (n : nat).

Abbreviation FlightDataPath := (list FlightItem).
Abbreviation FlightData := (list FlightDataPath).

(** The [options] of [generateFlight]. *)
Record FlightOptions := {
  actionResult : nat;
  skipFlight : bool;
  fo_asNotFound : option bool
}.

(** The arguments of [walkTreeWithFlightRouterState] that vary. *)
Record WalkArgs := {
  walk_ctx : AppRenderContext;
  loaderTreeToFilter : LoaderTree;
  flightRouterState : option FlightRouterState;
  walk_isFirst : bool;
  walk_asNotFound : bool
}.

(** What is handed to the Flight renderer [renderToReadableStream]. *)
Inductive FlightPayload :=
| BuildIdFlightDataPair (build : jsstring) (flightData : option FlightData)
| ActionFlightPayload (result : nat) (build : jsstring) (flightData : option FlightData).

Record ServerComponentsRenderOpts := {
  inlinedDataTransformStream : StreamId;
  sc_formState : option nat;
  sc_nonce : option jsstring
}.

(** The props and options of [<ServerComponentsRenderer asNotFound=... />]
    built from [tree], and the renderer configuration. *)
Record DocumentProps := {
  doc_tree : LoaderTree;
  doc_asNotFound : bool;
  doc_options : ServerComponentsRenderOpts;
  doc_formState : option nat;
  doc_resume : option jsstring
}.

Inductive ErrorType :=
| ErrorType_not_found
| ErrorType_redirect.

(** [<ErrorPage />]: the tree and [errorType] its metadata is created
    from, the two [errorMeta] tags, and the renderer options. *)
Record ErrorPageProps := {
  ep_tree : LoaderTree;
  ep_errorType : option ErrorType;
  ep_noindex : bool;
  ep_nextError : bool;
  ep_options : ServerComponentsRenderOpts;
  ep_formState : option nat
}.

Inductive Element :=
| DocumentElement (p : DocumentProps)
| ErrorPageElement (p : ErrorPageProps).

(** The stream a document-stream renderer returns for an element. *)
Inductive FizzStream :=
| FizzStreamOf (element : Element).

(** Which array [getServerInsertedHTML] is called with. *)
Inductive ServerInsertedErrors :=
| InsertedAllCapturedErrors
| InsertedNone.

Record ContinueStreamOptions := {
  inlinedDataStream : StreamId;
  generateStaticHTML : bool;
  getServerInsertedHTML : ServerInsertedErrors;
  serverInsertedHTMLToHead : bool;
  validateRootLayout : bool
}.

(** What [bodyResult] resolves to. *)
Inductive HtmlStream :=
| PostponedStream (stream : FizzStream)
| ContinuedFizzStream (stream : FizzStream) (options : ContinueStreamOptions)
| ContinuedPostponedFizzStream (stream : FizzStream) (options : ContinueStreamOptions).

(** The response of a [RenderResult]: a Flight stream, an HTML stream, the
    HTML materialised into one string, or whatever the action bridge
    produced. *)
Inductive ResultBody :=
| FlightBody (payload : FlightPayload)
| HtmlBody (html : HtmlStream)
| HtmlStringBody (html : HtmlStream)
| ActionBody (n : nat).

(** [pageData] is the string [toUnchunkedString] makes of a result, or
    [null]; the string is kept as the body it was made of. *)
Record RenderResultMetadata := {
  md_fetchMetrics : option (list nat);
  md_postponed : option nat;
  md_fetchTags : option jsstring;
  md_pageData : option (option ResultBody);
  md_revalidate : option Revalidate;
  md_staticBailoutInfo : option (option jsstring * option jsstring);
  md_waitUntil : option (list nat)
}.

Definition emptyMetadata : RenderResultMetadata :=
  {| md_fetchMetrics := None; md_postponed := None; md_fetchTags := None;
     md_pageData := None; md_revalidate := None; md_staticBailoutInfo := None;
     md_waitUntil := None |}.

Record RenderResult := {
  body : ResultBody;
  metadata : RenderResultMetadata
}.

Definition orElse {A} (a b : option A) : option A :=
  match a with Some _ => a | None => b end.

(** [RenderResult.extendMetadata]: [Object.assign] of the defined fields. *)
Definition extendMetadata (ext : RenderResultMetadata) (r : RenderResult) : RenderResult :=
  let m := metadata r in
  {| body := body r;
     metadata :=
       {| md_fetchMetrics := orElse (md_fetchMetrics ext) (md_fetchMetrics m);
          md_postponed := orElse (md_postponed ext) (md_postponed m);
          md_fetchTags := orElse (md_fetchTags ext) (md_fetchTags m);
          md_pageData := orElse (md_pageData ext) (md_pageData m);
          md_revalidate := orElse (md_revalidate ext) (md_revalidate m);
          md_staticBailoutInfo := orElse (md_staticBailoutInfo ext) (md_staticBailoutInfo m);
          md_waitUntil := orElse (md_waitUntil ext) (md_waitUntil m) |} |}.

(** The classification [handleAction] returns, when the request is an
    action. *)
Inductive ActionRequestResult :=
| ActionNotFound
| ActionDone (result : option RenderResult) (formState : option nat).

(** Does the action bridge answer the request itself: with the not-found
    page, or with the result of the action. *)
Definition actionAnswers (a : Completion (option ActionRequestResult)) : bool :=
  match a with
  | Normal (Some ActionNotFound) => true
  | Normal (Some (ActionDone (Some _) _)) => true
  | _ => false
  end.

(** The [_source] of an error handler. *)
Inductive ErrorSource :=
| serverComponentsRenderer
| flightDataRenderer
| htmlRenderer.

(** The errors a collaborator hands to the error handlers while it runs. *)
Abbreviation Reports := (list (ErrorSource * Error)).

(** What the orchestrator does that is visible from outside, in order. *)
Inductive Event :=
| EvTaint
| EvNewTransformStream (id : StreamId)
| EvCloneTransformStream (source clone : StreamId)
| EvWalkTree (args : WalkArgs)
| EvHandleAction
| EvRender (props : DocumentProps)
| EvRenderErrorPage (props : ErrorPageProps)
| EvContinue (stream : FizzStream) (options : ContinueStreamOptions)
| EvContinuePostponed (stream : FizzStream) (options : ContinueStreamOptions)
| EvUnchunk (b : ResultBody)
| EvWarn
| EvBailOnNotFound.

(** ** The collaborators *)

(** Everything [app-render.tsx] imports and calls.  The pure helpers are
    functions; an effectful collaborator yields the errors it reported to
    the error handlers while running, and how it completed. *)
Record World := {
  helpers : SegmentHelpers;
  (* ../../client/components/app-router-headers *)
  RSC : jsstring;
  NEXT_ROUTER_PREFETCH : jsstring;
  NEXT_ROUTER_STATE_TREE : jsstring;
  (* ../../shared/lib/lazy-dynamic/no-ssr-error *)
  NEXT_DYNAMIC_NO_SSR_CODE : jsstring;
  (* ../internal-utils: the names [stripInternalQueries] deletes *)
  INTERNAL_QUERY_NAMES : list jsstring;
  (* process.env, Date.now(), crypto.randomUUID(), nanoid() *)
  NODE_ENV : jsstring;
  NEXT_RUNTIME : option jsstring;
  Date_now : Z;
  randomUUID : jsstring;
  nanoid : jsstring;
  parseAndValidateFlightRouterState : option HeaderValue -> option FlightRouterState;
  getScriptNonceFromHeader : jsstring -> option jsstring;
  isNotFoundError : Error -> bool;
  isRedirectError : Error -> bool;
  getRedirectStatusCodeFromError : Error -> Z;
  getURLFromRedirectError : Error -> jsstring;
  (* on a fresh [Headers]: the returned flag and [headers.values()] afterwards *)
  appendMutableCookies : ResponseCookies -> bool * list jsstring;
  (* ./create-error-handler: does the handler of this source push the
     error onto [capturedErrors], and onto [allCapturedErrors] when it was
     given one *)
  handlerCaptures : ErrorSource -> Error -> bool;
  handlerCapturesAll : ErrorSource -> Error -> bool;
  addImplicitTags : StaticGenerationStore -> StaticGenerationStore;
  walkTreeWithFlightRouterState : WalkArgs -> Reports * Completion FlightData;
  toUnchunkedString : ResultBody -> Reports * option Error;
  handleAction : IncomingMessage -> AppRenderContext
                 -> Reports * Completion (option ActionRequestResult);
  (* renderer.render: the new postponed state, if the render postponed *)
  rendererRender : DocumentProps -> Reports * Completion (option nat);
  renderToInitialFizzStream : ErrorPageProps -> Reports * option Error;
  continueFizzStream : FizzStream -> ContinueStreamOptions -> Reports * option Error;
  continuePostponedFizzStream : FizzStream -> ContinueStreamOptions -> Reports * option Error;
  (* what [bailOnNotFound()] throws, if it throws *)
  bailOnNotFound : option Error
}.

(** Modelled from the spec: [addPathPrefix] of
    [../../shared/lib/router/utils/add-path-prefix] is not under src; the
    redirect URL is "prefixed with the configured basePath". *)
Definition addPathPrefix (path : jsstring) (prefix : option jsstring) : jsstring :=
  match prefix with
  | Some p => p ++ path
  | None => path
  end.

(** ** State and control *)

Record State := {
  res : ServerResponse;
  store : StaticGenerationStore;
  heap : gmap loc QueryObject;
  capturedErrors : list Error;
  allCapturedErrors : list Error;
  extraRenderResultMeta : RenderResultMetadata;
  streams : nat;
  trace : list Event
}.

(** The state [renderToHTMLOrFlightImpl] starts in: the caller's response,
    store and objects, and the fresh local arrays and metadata. *)
Definition initialState (r : ServerResponse) (st : StaticGenerationStore)
    (h : gmap loc QueryObject) : State :=
  {| res := r; store := st; heap := h; capturedErrors := [];
     allCapturedErrors := []; extraRenderResultMeta := emptyMetadata;
     streams := 0%nat; trace := [] |}.

Definition withRes (f : ServerResponse -> ServerResponse) (s : State) : State :=
  {| res := f (res s); store := store s; heap := heap s;
     capturedErrors := capturedErrors s; allCapturedErrors := allCapturedErrors s;
     extraRenderResultMeta := extraRenderResultMeta s; streams := streams s;
     trace := trace s |}.

Definition withStore (f : StaticGenerationStore -> StaticGenerationStore) (s : State) : State :=
  {| res := res s; store := f (store s); heap := heap s;
     capturedErrors := capturedErrors s; allCapturedErrors := allCapturedErrors s;
     extraRenderResultMeta := extraRenderResultMeta s; streams := streams s;
     trace := trace s |}.

Definition withHeap (f : gmap loc QueryObject -> gmap loc QueryObject) (s : State) : State :=
  {| res := res s; store := store s; heap := f (heap s);
     capturedErrors := capturedErrors s; allCapturedErrors := allCapturedErrors s;
     extraRenderResultMeta := extraRenderResultMeta s; streams := streams s;
     trace := trace s |}.

Definition withMeta (f : RenderResultMetadata -> RenderResultMetadata) (s : State) : State :=
  {| res := res s; store := store s; heap := heap s;
     capturedErrors := capturedErrors s; allCapturedErrors := allCapturedErrors s;
     extraRenderResultMeta := f (extraRenderResultMeta s); streams := streams s;
     trace := trace s |}.

Definition pushErrors (captured allCaptured : list Error) (s : State) : State :=
  {| res := res s; store := store s; heap := heap s;
     capturedErrors := capturedErrors s ++ captured;
     allCapturedErrors := allCapturedErrors s ++ allCaptured;
     extraRenderResultMeta := extraRenderResultMeta s; streams := streams s;
     trace := trace s |}.

Definition allocStream (s : State) : State :=
  {| res := res s; store := store s; heap := heap s;
     capturedErrors := capturedErrors s; allCapturedErrors := allCapturedErrors s;
     extraRenderResultMeta := extraRenderResultMeta s; streams := S (streams s);
     trace := trace s |}.

Definition logEvent (ev : Event) (s : State) : State :=
  {| res := res s; store := store s; heap := heap s;
     capturedErrors := capturedErrors s; allCapturedErrors := allCapturedErrors s;
     extraRenderResultMeta := extraRenderResultMeta s; streams := streams s;
     trace := trace s ++ [ev] |}.

(** A computation that may throw, over the shared objects. *)
Definition M (A : Type) : Type := State -> Completion A * State.

Definition ret {A} (a : A) : M A := fun s => (Normal a, s).

Definition bindM {A B} (m : M A) (f : A -> M B) : M B := fun s =>
  match m s with
  | (Normal a, s') => f a s'
  | (Throw e, s') => (Throw e, s')
  end.

Declare Scope M_scope.
Delimit Scope M_scope with M.
Notation "x ← y ; z" := (bindM y (fun x => z))
  (at level 20, y at level 100, z at level 200, only parsing) : M_scope.
Notation "x ;; z" := (bindM x (fun _ => z))
  (at level 100, z at level 200, only parsing, right associativity) : M_scope.
Local Open Scope M_scope.

Definition throw {A} (e : Error) : M A := fun s => (Throw e, s).

(** [try { m } catch (e) { h e }]. *)
Definition tryCatch {A} (m : M A) (h : Error -> M A) : M A := fun s =>
  match m s with
  | (Normal a, s') => (Normal a, s')
  | (Throw e, s') => h e s'
  end.

Definition gets {A} (f : State -> A) : M A := fun s => (Normal (f s), s).
Definition modify (f : State -> State) : M unit := fun s => (Normal tt, f s).
Definition emit (ev : Event) : M unit := modify (logEvent ev).
Definition when (b : bool) (m : M unit) : M unit := if b then m else ret tt.

Definition setMetaPostponed (p : option nat) (m : RenderResultMetadata) : RenderResultMetadata :=
  {| md_fetchMetrics := md_fetchMetrics m; md_postponed := p;
     md_fetchTags := md_fetchTags m; md_pageData := md_pageData m;
     md_revalidate := md_revalidate m; md_staticBailoutInfo := md_staticBailoutInfo m;
     md_waitUntil := md_waitUntil m |}.

Definition setMetaFetchMetrics (x : option (list nat)) (m : RenderResultMetadata) : RenderResultMetadata :=
  {| md_fetchMetrics := x; md_postponed := md_postponed m;
     md_fetchTags := md_fetchTags m; md_pageData := md_pageData m;
     md_revalidate := md_revalidate m; md_staticBailoutInfo := md_staticBailoutInfo m;
     md_waitUntil := md_waitUntil m |}.

Definition setMetaFetchTags (x : option jsstring) (m : RenderResultMetadata) : RenderResultMetadata :=
  {| md_fetchMetrics := md_fetchMetrics m; md_postponed := md_postponed m;
     md_fetchTags := x; md_pageData := md_pageData m;
     md_revalidate := md_revalidate m; md_staticBailoutInfo := md_staticBailoutInfo m;
     md_waitUntil := md_waitUntil m |}.

Definition setMetaPageData (x : option (option ResultBody)) (m : RenderResultMetadata) : RenderResultMetadata :=
  {| md_fetchMetrics := md_fetchMetrics m; md_postponed := md_postponed m;
     md_fetchTags := md_fetchTags m; md_pageData := x;
     md_revalidate := md_revalidate m; md_staticBailoutInfo := md_staticBailoutInfo m;
     md_waitUntil := md_waitUntil m |}.

Definition setMetaRevalidate (x : option Revalidate) (m : RenderResultMetadata) : RenderResultMetadata :=
  {| md_fetchMetrics := md_fetchMetrics m; md_postponed := md_postponed m;
     md_fetchTags := md_fetchTags m; md_pageData := md_pageData m;
     md_revalidate := x; md_staticBailoutInfo := md_staticBailoutInfo m;
     md_waitUntil := md_waitUntil m |}.

Definition setMetaStaticBailoutInfo (x : option (option jsstring * option jsstring))
    (m : RenderResultMetadata) : RenderResultMetadata :=
  {| md_fetchMetrics := md_fetchMetrics m; md_postponed := md_postponed m;
     md_fetchTags := md_fetchTags m; md_pageData := md_pageData m;
     md_revalidate := md_revalidate m; md_staticBailoutInfo := x;
     md_waitUntil := md_waitUntil m |}.

Definition setMetaWaitUntil (x : option (list nat)) (m : RenderResultMetadata) : RenderResultMetadata :=
  {| md_fetchMetrics := md_fetchMetrics m; md_postponed := md_postponed m;
     md_fetchTags := md_fetchTags m; md_pageData := md_pageData m;
     md_revalidate := md_revalidate m; md_staticBailoutInfo := md_staticBailoutInfo m;
     md_waitUntil := x |}.

(** ** The orchestrator *)

Section Orchestrator.
Variable W : World.

(** The handler built by [createErrorHandler] for [source];
    [allCapturedErrors] is passed to the [htmlRenderer] handler only. *)
Definition errorHandler (source : ErrorSource) (err : Error) (s : State) : State :=
  pushErrors
    (if handlerCaptures W source err then [err] else [])
    (match source with
     | htmlRenderer => if handlerCapturesAll W source err then [err] else []
     | _ => []
     end) s.

(** The state once every reported error went through its handler. *)
Definition reported (reports : Reports) (s : State) : State :=
  fold_left (fun s r => errorHandler (fst r) (snd r) s) reports s.

Definition report (reports : Reports) : M unit := modify (reported reports).

(** Awaiting a collaborator: its reports reach the handlers, then it
    resolves or rejects. *)
Definition await {A} (call : Reports * Completion A) : M A :=
  report (fst call) ;;
  match snd call with
  | Normal a => ret a
  | Throw e => throw e
  end.

Definition awaitUnit (call : Reports * option Error) : M unit :=
  report (fst call) ;;
  match snd call with
  | None => ret tt
  | Some e => throw e
  end.

(** The arguments [generateFlight] walks the tree with. *)
Definition flightWalkArgs (ctx : AppRenderContext) (options : option FlightOptions) : WalkArgs :=
  {| walk_ctx := ctx;
     loaderTreeToFilter := tree (ctx_renderOpts ctx);
     flightRouterState := providedFlightRouterState ctx;
     walk_isFirst := true;
     walk_asNotFound :=
       isNotFoundPath ctx
       || from_option (fun o => default false (fo_asNotFound o)) false options |}.

(** What [generateFlight] hands to the Flight renderer. *)
Definition flightPayload (ctx : AppRenderContext) (options : option FlightOptions)
    (flightData : option FlightData) : FlightPayload :=
  let build := buildId (ctx_renderOpts ctx) in
  match options with
  | Some o => ActionFlightPayload (actionResult o) build flightData
  | None => BuildIdFlightDataPair build flightData
  end.

(** [generateFlight(ctx, options?)]. *)
Definition generateFlight (ctx : AppRenderContext) (options : option FlightOptions)
  : M RenderResult :=
  flightData ←
    (if negb (from_option skipFlight false options) then
       emit (EvWalkTree (flightWalkArgs ctx options)) ;;
       paths ← await (walkTreeWithFlightRouterState W (flightWalkArgs ctx options));
       (* remove the '' (root) segment *)
       ret (Some (map (drop 1) paths))
     else ret None);
  ret {| body := FlightBody (flightPayload ctx options flightData);
         metadata := emptyMetadata |}.

(** [cloneTransformStream(source)]: a new stream whose [start] takes the
    reader of [source.readable]. *)
Definition cloneTransformStream (source : StreamId) : M StreamId :=
  clone ← gets streams;
  modify allocStream ;;
  emit (EvCloneTransformStream source clone) ;;
  ret clone.

Definition newTransformStream : M StreamId :=
  id ← gets streams;
  modify allocStream ;;
  emit (EvNewTransformStream id) ;;
  ret id.

(** What [bodyResult] closes over. *)
Record Closure := {
  cl_ctx : AppRenderContext;
  cl_serverComponentsRenderOpts : ServerComponentsRenderOpts;
  cl_nonce : option jsstring;
  cl_generateStaticHTML : bool;
  cl_validateRootLayout : bool
}.

(** [err.code === 'NEXT_STATIC_GEN_BAILOUT' ||
     err.message?.includes('https://nextjs.org/docs/advanced-features/static-html-export')]. *)
Definition isStaticGenBailout (err : Error) : bool :=
  bool_decide (err_code err = Some (js "NEXT_STATIC_GEN_BAILOUT"))
  || match err_message err with
     | Some m =>
       includes m (js "https://nextjs.org/docs/advanced-features/static-html-export")
     | None => false
     end.

(** The element [bodyResult] renders first. *)
Definition documentProps (cl : Closure) (asNotFound : bool) (tree0 : LoaderTree)
    (formState : option nat) : DocumentProps :=
  let renderOpts := ctx_renderOpts (cl_ctx cl) in
  {| doc_tree := tree0;
     doc_asNotFound := asNotFound;
     doc_options := cl_serverComponentsRenderOpts cl;
     doc_formState := formState;
     doc_resume := if truthy (postponed renderOpts) then postponed renderOpts else None |}.

(** [serverErrorComponentsRenderOpts]: the options of the first render
    with the cloned stream and the form state. *)
Definition serverErrorComponentsRenderOpts (cl : Closure) (clone : StreamId)
    (formState : option nat) : ServerComponentsRenderOpts :=
  {| inlinedDataTransformStream := clone;
     sc_formState := formState;
     sc_nonce := sc_nonce (cl_serverComponentsRenderOpts cl) |}.

(** [<ErrorPage />] as the [catch] block builds it. *)
Definition errorPageProps (cl : Closure) (tree0 : LoaderTree) (formState : option nat)
    (errorType : option ErrorType) (noindex : bool) (clone : StreamId) : ErrorPageProps :=
  {| ep_tree := tree0;
     ep_errorType := errorType;
     ep_noindex := noindex;
     ep_nextError := bool_decide (NODE_ENV W = js "development");
     ep_options := serverErrorComponentsRenderOpts cl clone formState;
     ep_formState := formState |}.

(** The options the error shell is continued with. *)
Definition errorContinueOptions (cl : Closure) (clone : StreamId) (formState : option nat)
    (staticGeneration : bool) : ContinueStreamOptions :=
  {| inlinedDataStream :=
       inlinedDataTransformStream (serverErrorComponentsRenderOpts cl clone formState);
     generateStaticHTML := staticGeneration;
     getServerInsertedHTML := InsertedNone;
     serverInsertedHTMLToHead := true;
     validateRootLayout := cl_validateRootLayout cl |}.

(** The options the document stream is continued with. *)
Definition documentContinueOptions (cl : Closure) (staticGeneration : bool)
  : ContinueStreamOptions :=
  let renderOpts := ctx_renderOpts (cl_ctx cl) in
  {| inlinedDataStream := inlinedDataTransformStream (cl_serverComponentsRenderOpts cl);
     generateStaticHTML := staticGeneration || cl_generateStaticHTML cl;
     getServerInsertedHTML := InsertedAllCapturedErrors;
     serverInsertedHTMLToHead := negb (truthy (postponed renderOpts));
     validateRootLayout := negb (truthy (postponed renderOpts)) && cl_validateRootLayout cl |}.

(** The inner [catch (finalErr)]: a development-mode not-found may bail
    out first, then the fallback's failure propagates. *)
Definition rethrowFinal {A} (finalErr : Error) : M A :=
  when (bool_decide (NODE_ENV W = js "development") && isNotFoundError W finalErr)
    (emit EvBailOnNotFound ;;
     match bailOnNotFound W with
     | Some e => throw e
     | None => ret tt
     end) ;;
  throw finalErr.

(** The second half of the [catch (err)] block: clone the stream, build
    [<ErrorPage />] and render it afresh. *)
Definition renderErrorShell (cl : Closure) (tree0 : LoaderTree) (formState : option nat)
    (is404 hasRedirectError : bool) : M HtmlStream :=
  (* clone the origin stream for error rendering *)
  clone ← cloneTransformStream (inlinedDataTransformStream (cl_serverComponentsRenderOpts cl));
  let errorType :=
    if is404 then Some ErrorType_not_found
    else if hasRedirectError then Some ErrorType_redirect
    else None in
  noindex ← gets (fun s => statusCode (res s) >=? 400);
  let errorPage := errorPageProps cl tree0 formState errorType noindex clone in
  tryCatch
    (emit (EvRenderErrorPage errorPage) ;;
     awaitUnit (renderToInitialFizzStream W errorPage) ;;
     let fizzStream := FizzStreamOf (ErrorPageElement errorPage) in
     staticGeneration ← gets (fun s => isStaticGeneration (store s));
     let options := errorContinueOptions cl clone formState staticGeneration in
     emit (EvContinue fizzStream options) ;;
     awaitUnit (continueFizzStream W fizzStream options) ;;
     ret (ContinuedFizzStream fizzStream options))
    rethrowFinal.

(** The first half of the [catch (err)] block: the status code and the
    redirect headers.  Returns [is404] and [hasRedirectError]. *)
Definition setErrorStatus (cl : Closure) (err : Error) : M (bool * bool) :=
  let renderOpts := ctx_renderOpts (cl_ctx cl) in
  when (bool_decide (err_digest err = Some (NEXT_DYNAMIC_NO_SSR_CODE W))) (emit EvWarn) ;;
  when (isNotFoundError W err) (modify (withRes (setStatusCode 404))) ;;
  hasRedirectError ←
    (if isRedirectError W err then
       modify (withRes (setStatusCode (getRedirectStatusCodeFromError W err))) ;;
       match err_mutableCookies err with
       | Some cookies =>
         let '(appended, values) := appendMutableCookies W cookies in
         when appended (modify (withRes (setHeader (js "set-cookie") (HArray values))))
       | None => ret tt
       end ;;
       let redirectUrl := addPathPrefix (getURLFromRedirectError W err) (basePath renderOpts) in
       modify (withRes (setHeader (js "Location") (HString redirectUrl))) ;;
       ret true
     else ret false);
  is404 ← gets (fun s => statusCode (res s) =? 404);
  when (negb is404 && negb hasRedirectError) (modify (withRes (setStatusCode 500))) ;;
  ret (is404, hasRedirectError).

(** The [catch (err)] block of [bodyResult]. *)
Definition recover (cl : Closure) (tree0 : LoaderTree) (formState : option nat)
    (err : Error) : M HtmlStream :=
  if isStaticGenBailout err then throw err
  else if err_postpone err then
    modify (withStore (setRevalidate (Some (RevalidateSeconds 0)))) ;;
    throw err
  else
    flags ← setErrorStatus cl err;
    renderErrorShell cl tree0 formState (fst flags) (snd flags).

(** The [bodyResult] closure.  Inside its [try], only
    [renderer.render] is awaited: the promise of
    [continueFizzStream] / [continuePostponedFizzStream] is returned as
    it is, so its rejection bypasses the [catch]. *)
Definition bodyResult (cl : Closure) (asNotFound : bool) (tree0 : LoaderTree)
    (formState : option nat) : M HtmlStream :=
  let renderOpts := ctx_renderOpts (cl_ctx cl) in
  let props := documentProps cl asNotFound tree0 formState in
  let stream := FizzStreamOf (DocumentElement props) in
  attempt ←
    tryCatch
      (emit (EvRender props) ;;
       postponedState ← await (rendererRender W props);
       match postponedState with
       | Some p =>
         modify (withMeta (setMetaPostponed (Some p))) ;;
         ret (inl (PostponedStream stream))
       | None =>
         staticGeneration ← gets (fun s => isStaticGeneration (store s));
         ret (inr (documentContinueOptions cl staticGeneration))
       end)
      (fun err => html ← recover cl tree0 formState err; ret (inl html));
  match attempt with
  | inl html => ret html
  | inr options =>
    if truthy (postponed renderOpts) then
      emit (EvContinuePostponed stream options) ;;
      awaitUnit (continuePostponedFizzStream W stream options) ;;
      ret (ContinuedPostponedFizzStream stream options)
    else
      emit (EvContinue stream options) ;;
      awaitUnit (continueFizzStream W stream options) ;;
      ret (ContinuedFizzStream stream options)
  end.

(** [query = { ...query }]: a new object with the same properties. *)
Definition spreadQuery (query : loc) : M loc :=
  copy ← gets (fun s => fresh (dom (heap s)));
  modify (withHeap (fun h => <[copy := default ∅ (h !! query)]> h)) ;;
  ret copy.

(** Modelled from the spec: [stripInternalQueries] of [../internal-utils]
    is not under src; it strips the internal-only query parameters from
    the object it is given, in place. *)
Definition stripInternalQueries (query : loc) : M unit :=
  modify (withHeap (alter (fun o => foldr delete o (INTERNAL_QUERY_NAMES W)) query)).

Definition hasHeader (req : IncomingMessage) (name : jsstring) : bool :=
  match req_headers req !! name with Some _ => true | None => false end.

(** [toUnchunkedString(true)] of a result. *)
Definition unchunk (b : ResultBody) : M unit :=
  emit (EvUnchunk b) ;; awaitUnit (toUnchunkedString W b).

(** The end of [renderToHTMLOrFlightImpl], once the action bridge let the
    request through: render the document, attach the metadata and, for
    static generation, materialise the HTML and fail on captured
    errors. *)
Definition finishRender (cl : Closure) (stringifiedFlightPayload : option ResultBody)
    (formState : option nat) : M RenderResult :=
  let ctx := cl_ctx cl in
  html ← bodyResult cl (isNotFoundPath ctx) (tree (ctx_renderOpts ctx)) formState;
  meta ← gets extraRenderResultMeta;
  pending ← gets (fun s => pendingRevalidates (store s));
  let renderResult :=
    {| body := HtmlBody html;
       metadata :=
         setMetaWaitUntil (Some (default [] pending))
           (setMetaPageData (Some stringifiedFlightPayload) meta) |} in
  modify (withStore (addImplicitTags W)) ;;
  fetchTags ← gets (fun s => join (js ",") <$> tags (store s));
  modify (withMeta (setMetaFetchTags fetchTags)) ;;
  let renderResult := extendMetadata (setMetaFetchTags fetchTags emptyMetadata) renderResult in
  staticGeneration ← gets (fun s => isStaticGeneration (store s));
  if staticGeneration then
    unchunk (body renderResult) ;;
    (* if we encountered any unexpected errors during build
       we fail the prerendering phase and the build *)
    captured ← gets capturedErrors;
    match captured with
    | first :: _ => throw first
    | [] =>
      force ← gets (fun s => forceStatic (store s));
      when (bool_decide (force = Some false))
        (modify (withStore (setRevalidate (Some (RevalidateSeconds 0))))) ;;
      modify (withMeta (setMetaPageData (Some stringifiedFlightPayload))) ;;
      rev ← gets (fun s => default (defaultRevalidate ctx) (revalidate (store s)));
      modify (withMeta (setMetaRevalidate (Some rev))) ;;
      when (bool_decide (rev = RevalidateSeconds 0))
        (info ← gets (fun s => (dynamicUsageDescription (store s), dynamicUsageStack (store s)));
         modify (withMeta (setMetaStaticBailoutInfo (Some info)))) ;;
      meta ← gets extraRenderResultMeta;
      ret {| body := HtmlStringBody html; metadata := meta |}
    end
  else ret renderResult.

(** The part of [renderToHTMLOrFlightImpl] after the navigation branch,
    given what [stringifiedFlightPayloadPromise] resolves to. *)
Definition renderDocument (req : IncomingMessage) (ctx : AppRenderContext)
    (generateStatic : bool)
    (stringifiedFlightPayload : option ResultBody) : M RenderResult :=
  let renderOpts := ctx_renderOpts ctx in
  let loaderTree := tree renderOpts in
  let nonce :=
    match req_headers req !! js "content-security-policy" with
    | Some (HString (c :: csp)) => getScriptNonceFromHeader W (c :: csp)
    | _ => None
    end in
  stream ← newTransformStream;
  let cl :=
    {| cl_ctx := ctx;
       cl_serverComponentsRenderOpts :=
         {| inlinedDataTransformStream := stream; sc_formState := None; sc_nonce := nonce |};
       cl_nonce := nonce;
       cl_generateStaticHTML := generateStatic;
       cl_validateRootLayout := dev renderOpts |} in
  emit EvHandleAction ;;
  actionRequestResult ← await (handleAction W req ctx);
  match actionRequestResult with
  | Some ActionNotFound =>
    let notFoundLoaderTree := createNotFoundLoaderTree loaderTree in
    html ← bodyResult cl true notFoundLoaderTree None;
    meta ← gets extraRenderResultMeta;
    ret {| body := HtmlBody html; metadata := meta |}
  | Some (ActionDone (Some result) _) =>
    meta ← gets extraRenderResultMeta;
    ret (extendMetadata meta result)
  | Some (ActionDone None (Some formState)) =>
    finishRender cl stringifiedFlightPayload (Some formState)
  | Some (ActionDone None None) => finishRender cl stringifiedFlightPayload None
  | None => finishRender cl stringifiedFlightPayload None
  end.

(** [stringifiedFlightPayloadPromise]: the eager Flight generation,
    turned into a string, with [.catch(() => null)]. *)
Definition stringifyFlightPayload (ctx : AppRenderContext) (eager : bool)
  : M (option ResultBody) :=
  if eager then
    tryCatch
      (renderResult ← generateFlight ctx None;
       unchunk (body renderResult) ;;
       ret (Some (body renderResult)))
      (fun _ => ret None)
  else ret None.

(** Does [generateFlight(ctx).then(r => r.toUnchunkedString(true))]
    reject: the tree walk rejects, or the stream of the payload errors
    while it is read. *)
Definition eagerFlightFails (ctx : AppRenderContext) : bool :=
  match snd (walkTreeWithFlightRouterState W (flightWalkArgs ctx None)) with
  | Throw _ => true
  | Normal paths =>
    bool_decide
      (is_Some (snd (toUnchunkedString W
                       (FlightBody (flightPayload ctx None (Some (map (drop 1) paths)))))))
  end.

(** The [ctx] that [renderToHTMLOrFlightImpl] builds, [query] being the
    stripped copy of the caller's query. *)
Definition appRenderContext (req : IncomingMessage) (pagePath0 : jsstring)
    (query : loc) (renderOpts : RenderOpts) (staticGeneration : bool) : AppRenderContext :=
  let isFlight := hasHeader req (toLowerCase (RSC W)) in
  let providedFlightRouterState0 :=
    if isFlight then
      parseAndValidateFlightRouterState W
        (req_headers req !! toLowerCase (NEXT_ROUTER_STATE_TREE W))
    else None in
  {| ctx_renderOpts := renderOpts;
     getDynamicParamFromSegment :=
       makeGetDynamicParamFromSegment (helpers W) (default ∅ (params renderOpts))
         providedFlightRouterState0;
     ctx_query := query;
     isPrefetch := hasHeader req (toLowerCase (NEXT_ROUTER_PREFETCH W));
     providedSearchParams :=
       if staticGeneration then SearchParamsBailoutProxy else SearchParamsQuery query;
     requestTimestamp := Date_now W;
     appUsingSizeAdjustment := appUsingSizeAdjust renderOpts;
     providedFlightRouterState := providedFlightRouterState0;
     requestId :=
       if bool_decide (NEXT_RUNTIME W = Some (js "edge")) then randomUUID W else nanoid W;
     defaultRevalidate := RevalidateFalse;
     pagePath := pagePath0;
     ctx_assetPrefix := default [] (assetPrefix renderOpts);
     isNotFoundPath := bool_decide (pagePath0 = js "/404") |}.

(** [renderToHTMLOrFlightImpl(req, res, pagePath, query, renderOpts, baseCtx)];
    [res], [baseCtx.staticGenerationStore] and the object behind [query]
    are in the state. *)
Definition renderToHTMLOrFlightImpl (req : IncomingMessage) (pagePath0 : jsstring)
    (query : loc) (renderOpts : RenderOpts) : M RenderResult :=
  let isFlight := hasHeader req (toLowerCase (RSC W)) in
  let generateStatic := negb (bool_decide (supportsDynamicHTML renderOpts = Some true)) in
  when (enableTainting renderOpts) (emit EvTaint) ;;
  modify (withStore (setFetchMetrics (Some []))) ;;
  metrics ← gets (fun s => fetchMetrics (store s));
  modify (withMeta (setMetaFetchMetrics metrics)) ;;
  (* don't modify original query object *)
  query ← spreadQuery query;
  stripInternalQueries query ;;
  staticGeneration ← gets (fun s => isStaticGeneration (store s));
  let ctx := appRenderContext req pagePath0 query renderOpts staticGeneration in
  if isFlight && negb staticGeneration then generateFlight ctx None
  else
    let hasPostponed := bool_decide (is_Some (postponed renderOpts)) in
    stringifiedFlightPayload ← stringifyFlightPayload ctx (staticGeneration || hasPostponed);
    renderDocument req ctx generateStatic stringifiedFlightPayload.

End Orchestrator.

(** ** Reading a trace *)

(** The transform stream an element's server-components renderer writes
    the inlined data to. *)
Definition elementStream (e : Element) : StreamId :=
  match e with
  | DocumentElement p => inlinedDataTransformStream (doc_options p)
  | ErrorPageElement p => inlinedDataTransformStream (ep_options p)
  end.

Definition fizzElement (s : FizzStream) : Element :=
  match s with FizzStreamOf e => e end.



Definition isDocumentRender (ev : Event) : bool :=
  match ev with
  | EvRender _ | EvRenderErrorPage _ | EvContinue _ _ | EvContinuePostponed _ _ => true
  | _ => false
  end.

(** The events that involve a transform stream. *)
Definition isStreamEvent (ev : Event) : bool :=
  match ev with
  | EvCloneTransformStream _ _ | EvRender _ | EvRenderErrorPage _
  | EvContinue _ _ | EvContinuePostponed _ _ => true
  | _ => false
  end.

Definition streamEvents (t : list Event) : list Event := List.filter isStreamEvent t.

(** The stream events one call of [bodyResult] with the stream [orig]
    leaves behind, [clone] being the next stream to be created: the first
    render alone (postponed, or failed and re-thrown), the first render
    continued, or the first render followed by the clone and the render of
    the error shell, continued unless that render failed. *)
Inductive AttemptEvents (orig clone : StreamId) : list Event -> Prop :=
| AttemptOnly props :
    inlinedDataTransformStream (doc_options props) = orig ->
    AttemptEvents orig clone [EvRender props]
| AttemptContinued props o :
    inlinedDataTransformStream (doc_options props) = orig ->
    inlinedDataStream o = orig ->
    AttemptEvents orig clone
      [EvRender props; EvContinue (FizzStreamOf (DocumentElement props)) o]
| AttemptContinuedPostponed props o :
    inlinedDataTransformStream (doc_options props) = orig ->
    inlinedDataStream o = orig ->
    AttemptEvents orig clone
      [EvRender props; EvContinuePostponed (FizzStreamOf (DocumentElement props)) o]
| AttemptShellFailed props page :
    inlinedDataTransformStream (doc_options props) = orig ->
    inlinedDataTransformStream (ep_options page) = clone ->
    AttemptEvents orig clone
      [EvRender props; EvCloneTransformStream orig clone; EvRenderErrorPage page]
| AttemptShell props page o :
    inlinedDataTransformStream (doc_options props) = orig ->
    inlinedDataTransformStream (ep_options page) = clone ->
    inlinedDataStream o = clone ->
    AttemptEvents orig clone
      [EvRender props; EvCloneTransformStream orig clone; EvRenderErrorPage page;
       EvContinue (FizzStreamOf (ErrorPageElement page)) o].

(** The materialisation of a rendered HTML document. *)
Definition isHtmlUnchunk (ev : Event) : bool :=
  match ev with
  | EvUnchunk (HtmlBody _) => true
  | _ => false
  end.

Definition htmlUnchunks (t : list Event) : list Event := List.filter isHtmlUnchunk t.



(** The dev-only bail-out of the fallback path. *)
Definition isBailEvent (ev : Event) : bool :=
  match ev with EvBailOnNotFound => true | _ => false end.

(** The first render of a document. *)
Definition isRenderEvent (ev : Event) : bool :=
  match ev with EvRender _ => true | _ => false end.


(** The deopted-into-client-rendering warning. *)
Definition isWarnEvent (ev : Event) : bool :=
  match ev with EvWarn => true | _ => false end.


(** A computation leaves an aspect of the state as it found it. *)
Definition preserves {X A : Type} (proj : State -> X) (m : M A) : Prop :=
  forall s, proj (snd (m s)) = proj s.

(** ** Concrete collaborators for the examples *)

Definition sampleGetSegmentParam (segment : jsstring) : option SegmentParam :=
  let n := length segment in
  if startsWith segment (js "[[...") then
    Some (mkSegmentParam (take (n - 7) (drop 5 segment)) (js "optional-catchall"))
  else if startsWith segment (js "[...") then
    Some (mkSegmentParam (take (n - 5) (drop 4 segment)) (js "catchall"))
  else if startsWith segment (js "[") then
    Some (mkSegmentParam (take (n - 2) (drop 1 segment)) (js "dynamic"))
  else None.

Definition sampleShortType (type : jsstring) : jsstring :=
  if bool_decide (type = js "catchall") then js "c"
  else if bool_decide (type = js "optional-catchall") then js "oc"
  else js "d".

Definition sampleHelpers : SegmentHelpers :=
  {| getSegmentParam := sampleGetSegmentParam;
     canSegmentBeOverridden := fun segment treeSegment =>
       match treeSegment, sampleGetSegmentParam segment with
       | SegDyn p _ _, Some sp => bool_decide (sp_param sp = p)
       | _, _ => false
       end;
     dynamicParamTypes := sampleShortType;
     getShortDynamicParamType := sampleShortType |}.

Definition notFoundError : Error :=
  mkError None (Some (js "NEXT_NOT_FOUND")) (Some (js "NEXT_NOT_FOUND")) false None.

Definition redirectError : Error :=
  mkError None (Some (js "NEXT_REDIRECT")) (Some (js "NEXT_REDIRECT;replace;/login;307;"))
          false (Some [js "session=1"]).

Definition bailoutError : Error :=
  mkError (Some (js "NEXT_STATIC_GEN_BAILOUT")) (Some (js "Page couldn't be rendered statically"))
          None false None.

Definition genericError : Error := plainError (js "boom").

Definition postponeError : Error :=
  mkError None (Some (js "postponed")) None true None.

Definition sampleWorld (render : Reports * Completion (option nat))
    (errorPage : option Error) (action : option ActionRequestResult)
    (walk : Completion FlightData) (flightString : Reports * option Error) : World :=
  {| helpers := sampleHelpers;
     RSC := js "RSC";
     NEXT_ROUTER_PREFETCH := js "Next-Router-Prefetch";
     NEXT_ROUTER_STATE_TREE := js "Next-Router-State-Tree";
     NEXT_DYNAMIC_NO_SSR_CODE := js "NEXT_DYNAMIC_NO_SSR_CODE";
     INTERNAL_QUERY_NAMES := [js "__nextLocale"; js "__nextDefaultLocale"];
     NODE_ENV := js "production";
     NEXT_RUNTIME := None;
     Date_now := 0;
     randomUUID := js "uuid";
     nanoid := js "id";
     parseAndValidateFlightRouterState := fun _ => None;
     getScriptNonceFromHeader := fun _ => None;
     isNotFoundError := fun e => bool_decide (err_digest e = Some (js "NEXT_NOT_FOUND"));
     isRedirectError := fun e =>
       match err_digest e with
       | Some d => startsWith d (js "NEXT_REDIRECT;")
       | None => false
       end;
     getRedirectStatusCodeFromError := fun _ => 307;
     getURLFromRedirectError := fun _ => js "/login";
     appendMutableCookies := fun cookies =>
       match cookies with [] => (false, []) | _ => (true, cookies) end;
     handlerCaptures := fun _ _ => true;
     handlerCapturesAll := fun _ _ => true;
     addImplicitTags := fun st => st;
     walkTreeWithFlightRouterState := fun _ => ([], walk);
     toUnchunkedString := fun b =>
       match b with FlightBody _ => flightString | _ => ([], None) end;
     handleAction := fun _ _ => ([], Normal action);
     rendererRender := fun _ => render;
     renderToInitialFizzStream := fun _ => ([], errorPage);
     continueFizzStream := fun _ _ => ([], None);
     continuePostponedFizzStream := fun _ _ => ([], None);
     bailOnNotFound := None |}.

Definition sampleTree : LoaderTree :=
  LoaderTreeNode [] [(js "children", LoaderTreeNode (js "blog") [] 1%nat)] 0%nat.

Definition sampleRenderOpts : RenderOpts :=
  {| dev := false; supportsDynamicHTML := Some true; buildId := js "build";
     assetPrefix := None; basePath := Some (js "/docs"); enableTainting := false;
     nextExport := false; appUsingSizeAdjust := false; ppr := false;
     postponed := None; params := None; tree := sampleTree |}.

Definition sampleStore (static : bool) : StaticGenerationStore :=
  {| urlPathname := js "/blog"; isStaticGeneration := static; revalidate := None;
     forceStatic := None; tags := None; fetchMetrics := None;
     pendingRevalidates := None; dynamicUsageDescription := None;
     dynamicUsageStack := None |}.

Definition sampleResponse : ServerResponse :=
  {| statusCode := 200; res_headers := ∅ |}.

Definition sampleRequest (flight : bool) : IncomingMessage :=
  {| req_headers := if flight then {[ js "rsc" := HString (js "1") ]} else ∅ |}.

Definition sampleContext : AppRenderContext :=
  {| ctx_renderOpts := sampleRenderOpts;
     getDynamicParamFromSegment := makeGetDynamicParamFromSegment sampleHelpers ∅ None;
     ctx_query := 1%nat;
     isPrefetch := false;
     providedSearchParams := SearchParamsQuery 1%nat;
     requestTimestamp := 0;
     appUsingSizeAdjustment := false;
     providedFlightRouterState := None;
     requestId := js "id";
     defaultRevalidate := RevalidateFalse;
     pagePath := js "/blog";
     ctx_assetPrefix := [];
     isNotFoundPath := false |}.

Definition sampleClosure : Closure :=
  {| cl_ctx := sampleContext;
     cl_serverComponentsRenderOpts :=
       {| inlinedDataTransformStream := 0%nat; sc_formState := None; sc_nonce := None |};
     cl_nonce := None;
     cl_generateStaticHTML := false;
     cl_validateRootLayout := false |}.

(** The state [bodyResult] is entered in once the transform stream of
    [sampleClosure] exists. *)
Definition sampleState (static : bool) : State :=
  allocStream (initialState sampleResponse (sampleStore static) ∅).

(** The router state of [/profile/42] with an intercepting [modal] slot. *)
Definition sampleRouterState : FlightRouterState :=
  RouterState (SegStr []) [
    (js "children",
     RouterState (SegStr (js "profile")) [
       (js "children", RouterState (SegDyn (js "id") (js "42") (js "d")) [] None None None)
     ] None None None);
    (js "modal", RouterState (SegDyn (js "slug") (js "hello") (js "d")) [] None None None)
  ] None None None.

(** * Properties *)

Example encode_ascii : encodeURIComponent (js "a b/c") = Some (js "a%20b%2Fc").
Proof. reflexivity. Qed.

Example encode_e_acute : encodeURIComponent [0xE9] = Some (js "%C3%A9").
Proof. reflexivity. Qed.

Example encode_emoji : encodeURIComponent [0xD83D; 0xDE00] = Some (js "%F0%9F%98%80").
Proof. reflexivity. Qed.

Example encode_lone : encodeURIComponent [0xD83D; 65] = None.
Proof. reflexivity. Qed.

Example decode_emoji : decodeURIComponent (js "x%F0%9F%98%80%e2%82%ac") = Some [120; 0xD83D; 0xDE00; 0x20AC].
Proof. reflexivity. Qed.

Example decode_overlong : decodeURIComponent (js "%C0%80") = None.
Proof. reflexivity. Qed.

(** ** Percent-encoding round trip *)

Lemma hexValue_hexDigit (d : Z) : 0 <= d < 16 -> hexValue (hexDigit d) = Some d.
Proof.
  intros Hd. unfold hexValue, hexDigit.
  destruct (Z.ltb_spec d 10).
  - replace ((48 <=? 48 + d) && (48 + d <=? 57)) with true
      by (symmetry; apply andb_true_iff; split; apply Z.leb_le; lia).
    f_equal. lia.
  - replace ((48 <=? 55 + d) && (55 + d <=? 57)) with false
      by (symmetry; apply andb_false_iff; right; apply Z.leb_gt; lia).
    replace ((65 <=? 55 + d) && (55 + d <=? 70)) with true
      by (symmetry; apply andb_true_iff; split; apply Z.leb_le; lia).
    f_equal. lia.
Qed.

Lemma ParseHexOctet_pct (b : Z) :
  isOctet b -> ParseHexOctet (hexDigit (b / 16)) (hexDigit (b mod 16)) = Some b.
Proof.
  intros Hb. unfold isOctet in Hb. unfold ParseHexOctet.
  rewrite !hexValue_hexDigit.
  - f_equal. pose proof (Z.div_mod b 16). lia.
  - apply Z.mod_pos_bound. lia.
  - split; [apply Z.div_pos; lia | apply Z.div_lt_upper_bound; lia].
Qed.

Lemma readContinuation_pct (bs : list Z) (rest : jsstring) :
  Forall isOctet bs ->
  readContinuation (length bs) (pctOctets bs ++ rest) = Some (bs, rest).
Proof.
  induction 1 as [|b bs Hb _ IH]; [reflexivity|].
  unfold pctOctets in *. cbn [length map concat readContinuation pctOctet app].
  rewrite ParseHexOctet_pct by assumption. rewrite IH. reflexivity.
Qed.

Lemma Decode_escape (fuel : nat) (h1 h2 b : Z) (rest : jsstring) :
  ParseHexOctet h1 h2 = Some b ->
  Decode (S fuel) (37 :: h1 :: h2 :: rest) =
  match leadingOnes b with
  | O => cons b <$> Decode fuel rest
  | S O => None
  | S (S (S (S (S _)))) => None
  | S n' =>
    match readContinuation n' rest with
    | Some (bs, rest3) =>
      match utf8Decode (b :: bs) with
      | Some v => app (utf16EncodeCodePoint v) <$> Decode fuel rest3
      | None => None
      end
    | None => None
    end
  end.
Proof. intros Hp. cbn [Decode]. rewrite Z.eqb_refl, Hp. reflexivity. Qed.

Lemma Decode_plain (fuel : nat) (c : Z) (rest : jsstring) :
  c <> 37 -> Decode (S fuel) (c :: rest) = cons c <$> Decode fuel rest.
Proof. intros Hc. cbn [Decode]. apply Z.eqb_neq in Hc. rewrite Hc. reflexivity. Qed.

Ltac bool_to_Z :=
  repeat match goal with
  | |- context [?a <? ?b] => destruct (Z.ltb_spec a b); try lia
  | |- context [?a <=? ?b] => destruct (Z.leb_spec a b); try lia
  end.

Lemma Decode_utf8 (fuel : nat) (cp : Z) (rest : jsstring) :
  isScalarValue cp ->
  Decode (S fuel) (pctOctets (utf8Encode cp) ++ rest) =
  app (utf16EncodeCodePoint cp) <$> Decode fuel rest.
Proof.
  intros [Hr Hs]. unfold utf8Encode.
  pose proof (Z.div_mod cp 64 ltac:(lia)) as E64.
  pose proof (Z.mod_pos_bound cp 64 ltac:(lia)) as B64.
  pose proof (Z.div_mod (cp / 64) 64 ltac:(lia)) as E4096.
  pose proof (Z.mod_pos_bound (cp / 64) 64 ltac:(lia)) as B4096.
  rewrite Z.div_div in E4096 by lia. change (64 * 64) with 4096 in E4096.
  pose proof (Z.div_mod (cp / 4096) 64 ltac:(lia)) as E18.
  pose proof (Z.mod_pos_bound (cp / 4096) 64 ltac:(lia)) as B18.
  rewrite Z.div_div in E18 by lia. change (4096 * 64) with 262144 in E18.
  destruct (Z.ltb_spec cp 0x80) as [H1|H1].
  { (* one octet *)
    unfold pctOctets. cbn [map concat pctOctet app].
    rewrite (Decode_escape fuel _ _ cp) by (apply ParseHexOctet_pct; unfold isOctet; lia).
    unfold leadingOnes. destruct (Z.ltb_spec cp 128); [|lia].
    unfold utf16EncodeCodePoint. destruct (Z.leb_spec cp 65535); [|lia]. reflexivity. }
  destruct (Z.ltb_spec cp 0x800) as [H2|H2].
  { set (b0 := 0xC0 + cp / 64). set (b1 := 0x80 + cp mod 64).
    assert (Hb0 : 0xC0 <= b0 < 0xE0) by (unfold b0; lia).
    assert (Hb1 : 0x80 <= b1 <= 0xBF) by (unfold b1; lia).
    change (pctOctets [b0; b1] ++ rest)
      with (37 :: hexDigit (b0 / 16) :: hexDigit (b0 mod 16) :: pctOctets [b1] ++ rest).
    rewrite (Decode_escape fuel _ _ b0) by (apply ParseHexOctet_pct; unfold isOctet; lia).
    replace (leadingOnes b0) with 2%nat by (unfold leadingOnes; bool_to_Z; reflexivity).
    rewrite (readContinuation_pct [b1]) by (repeat constructor; unfold isOctet; lia).
    unfold utf8Decode, isContinuationOctet.
    replace ((b0 - 192) * 64 + (b1 - 128)) with cp by (unfold b0, b1; lia).
    replace ((128 <=? b1) && (b1 <=? 191) && (128 <=? cp)) with true
      by (symmetry; rewrite !andb_true_iff, !Z.leb_le; lia).
    reflexivity. }
  destruct (Z.ltb_spec cp 0x10000) as [H3|H3].
  { set (b0 := 0xE0 + cp / 4096). set (b1 := 0x80 + (cp / 64) mod 64).
    set (b2 := 0x80 + cp mod 64).
    assert (Hb0 : 0xE0 <= b0 < 0xF0) by (unfold b0; lia).
    assert (Hb1 : 0x80 <= b1 <= 0xBF) by (unfold b1; lia).
    assert (Hb2 : 0x80 <= b2 <= 0xBF) by (unfold b2; lia).
    change (pctOctets [b0; b1; b2] ++ rest)
      with (37 :: hexDigit (b0 / 16) :: hexDigit (b0 mod 16) :: pctOctets [b1; b2] ++ rest).
    rewrite (Decode_escape fuel _ _ b0) by (apply ParseHexOctet_pct; unfold isOctet; lia).
    replace (leadingOnes b0) with 3%nat by (unfold leadingOnes; bool_to_Z; reflexivity).
    rewrite (readContinuation_pct [b1; b2]) by (repeat constructor; unfold isOctet; lia).
    unfold utf8Decode, isContinuationOctet.
    replace ((b0 - 224) * 4096 + (b1 - 128) * 64 + (b2 - 128)) with cp
      by (unfold b0, b1, b2; lia).
    replace ((128 <=? b1) && (b1 <=? 191) && ((128 <=? b2) && (b2 <=? 191))
             && (2048 <=? cp) && negb ((55296 <=? cp) && (cp <=? 57343))) with true.
    2:{ symmetry. rewrite !andb_true_iff, negb_true_iff, andb_false_iff,
          !Z.leb_le, !Z.leb_gt. lia. }
    unfold utf16EncodeCodePoint. destruct (Z.leb_spec cp 65535); [|lia]. reflexivity. }
  { set (b0 := 0xF0 + cp / 262144). set (b1 := 0x80 + (cp / 4096) mod 64).
    set (b2 := 0x80 + (cp / 64) mod 64). set (b3 := 0x80 + cp mod 64).
    assert (Hb0 : 0xF0 <= b0 < 0xF8) by (unfold b0; lia).
    assert (Hb1 : 0x80 <= b1 <= 0xBF) by (unfold b1; lia).
    assert (Hb2 : 0x80 <= b2 <= 0xBF) by (unfold b2; lia).
    assert (Hb3 : 0x80 <= b3 <= 0xBF) by (unfold b3; lia).
    change (pctOctets [b0; b1; b2; b3] ++ rest)
      with (37 :: hexDigit (b0 / 16) :: hexDigit (b0 mod 16)
               :: pctOctets [b1; b2; b3] ++ rest).
    rewrite (Decode_escape fuel _ _ b0) by (apply ParseHexOctet_pct; unfold isOctet; lia).
    replace (leadingOnes b0) with 4%nat by (unfold leadingOnes; bool_to_Z; reflexivity).
    rewrite (readContinuation_pct [b1; b2; b3]) by (repeat constructor; unfold isOctet; lia).
    unfold utf8Decode, isContinuationOctet.
    replace ((b0 - 240) * 262144 + (b1 - 128) * 4096 + (b2 - 128) * 64 + (b3 - 128))
      with cp by (unfold b0, b1, b2, b3; lia).
    replace ((128 <=? b1) && (b1 <=? 191) && ((128 <=? b2) && (b2 <=? 191))
             && ((128 <=? b3) && (b3 <=? 191)) && (65536 <=? cp) && (cp <=? 1114111))
      with true by (symmetry; rewrite !andb_true_iff, !Z.leb_le; lia).
    reflexivity. }
Qed.

Lemma uriUnescaped_not_percent (c : Z) : uriUnescaped c = true -> c <> 37.
Proof. intros Hu ->. discriminate Hu. Qed.

Lemma pctOctets_utf8_nonempty (cp : Z) (rest : jsstring) :
  (length rest < length (pctOctets (utf8Encode cp) ++ rest))%nat.
Proof.
  rewrite length_app. unfold utf8Encode.
  repeat match goal with |- context [if ?b then _ else _] => destruct b end;
    cbn; lia.
Qed.

Lemma surrogatePair_scalar (c c2 : Z) :
  isLeadingSurrogate c = true -> isTrailingSurrogate c2 = true ->
  isScalarValue (surrogatePairToCodePoint c c2) /\
  utf16EncodeCodePoint (surrogatePairToCodePoint c c2) = [c; c2].
Proof.
  unfold isLeadingSurrogate, isTrailingSurrogate, surrogatePairToCodePoint,
    isScalarValue, utf16EncodeCodePoint.
  rewrite !andb_true_iff, !Z.leb_le. intros [H1 H2] [H3 H4].
  split; [lia|].
  destruct (Z.leb_spec ((c - 55296) * 1024 + (c2 - 56320) + 65536) 65535); [lia|].
  replace ((c - 55296) * 1024 + (c2 - 56320) + 65536 - 65536)
    with ((c2 - 56320) + (c - 55296) * 1024) by lia.
  rewrite Z.div_add, Z.mod_add by lia.
  rewrite Z.div_small, Z.mod_small by lia.
  f_equal; [lia | f_equal; lia].
Qed.

Lemma bmp_scalar (c : Z) :
  isCodeUnit c = true -> isLeadingSurrogate c = false ->
  isTrailingSurrogate c = false ->
  isScalarValue c /\ utf16EncodeCodePoint c = [c].
Proof.
  unfold isCodeUnit, isLeadingSurrogate, isTrailingSurrogate, isScalarValue,
    utf16EncodeCodePoint.
  rewrite andb_true_iff, !andb_false_iff, Z.leb_le, Z.ltb_lt, !Z.leb_gt.
  intros [H1 H2] H3 H4. split; [lia|].
  destruct (Z.leb_spec c 65535); [reflexivity | lia].
Qed.

Lemma Decode_encodeURIComponent (n : nat) :
  forall (v e : jsstring) (fuel : nat),
    (length v <= n)%nat -> isString v = true ->
    encodeURIComponent v = Some e -> (length e <= fuel)%nat ->
    Decode fuel e = Some v.
Proof.
  induction n as [|n IH]; intros v e fuel Hn Hs He Hf.
  { destruct v; [|cbn in Hn; lia]. cbn in He. injection He as <-.
    destruct fuel; reflexivity. }
  destruct v as [|c rest]; [cbn in He; injection He as <-; destruct fuel; reflexivity|].
  cbn [length] in Hn. cbn [isString forallb] in Hs.
  apply andb_true_iff in Hs as [Hc Hs]. fold (isString rest) in Hs.
  cbn [encodeURIComponent] in He.
  destruct (uriUnescaped c) eqn:Hu.
  { destruct (encodeURIComponent rest) as [e'|] eqn:He'; [|discriminate He].
    cbn in He. injection He as <-.
    destruct fuel as [|fuel]; [cbn in Hf; lia|]. cbn [length] in Hf.
    rewrite Decode_plain by (apply uriUnescaped_not_percent; exact Hu).
    rewrite (IH rest e' fuel) by (assumption || lia). reflexivity. }
  destruct (isLeadingSurrogate c) eqn:Hl.
  { destruct rest as [|c2 rest']; [discriminate He|].
    destruct (isTrailingSurrogate c2) eqn:Ht; [|discriminate He].
    destruct (encodeURIComponent rest') as [e'|] eqn:He'; [|discriminate He].
    cbn in He. injection He as <-.
    cbn [isString forallb] in Hs. apply andb_true_iff in Hs as [_ Hs].
    destruct (surrogatePair_scalar c c2 Hl Ht) as [Hsc Hu16].
    pose proof (pctOctets_utf8_nonempty (surrogatePairToCodePoint c c2) e') as Hlen.
    destruct fuel as [|fuel]; [lia|].
    rewrite Decode_utf8 by exact Hsc.
    rewrite (IH rest' e' fuel); [rewrite Hu16; reflexivity | | exact Hs | exact He' | lia].
    cbn [length] in Hn. lia. }
  destruct (isTrailingSurrogate c) eqn:Ht; [discriminate He|].
  destruct (encodeURIComponent rest) as [e'|] eqn:He'; [|discriminate He].
  cbn in He. injection He as <-.
  destruct (bmp_scalar c Hc Hl Ht) as [Hsc Hu16].
  pose proof (pctOctets_utf8_nonempty c e') as Hlen.
  destruct fuel as [|fuel]; [lia|].
  rewrite Decode_utf8 by exact Hsc.
  rewrite (IH rest e' fuel); [rewrite Hu16; reflexivity | lia | exact Hs | exact He' | lia].
Qed.

Lemma decode_encodeURIComponent (v e : jsstring) :
  isString v = true -> encodeURIComponent v = Some e ->
  decodeURIComponent e = Some v.
Proof.
  intros Hs He. unfold decodeURIComponent.
  apply (Decode_encodeURIComponent (length v)); auto.
Qed.

Lemma uriUnescaped_not_surrogate (c : Z) :
  uriUnescaped c = true ->
  isLeadingSurrogate c = false /\ isTrailingSurrogate c = false.
Proof.
  unfold uriUnescaped, isLeadingSurrogate, isTrailingSurrogate. cbn [existsb].
  rewrite !orb_true_iff, !andb_true_iff, !andb_false_iff, !Z.leb_le, !Z.leb_gt,
    !Z.eqb_eq. lia.
Qed.

Lemma encodeURIComponent_wellFormed (n : nat) :
  forall v : jsstring, (length v <= n)%nat -> isWellFormed v = true ->
    exists e, encodeURIComponent v = Some e.
Proof.
  induction n as [|n IH]; intros v Hn Hw.
  { destruct v; [exists []; reflexivity | cbn in Hn; lia]. }
  destruct v as [|c rest]; [exists []; reflexivity|].
  cbn [length] in Hn. cbn [isWellFormed] in Hw. cbn [encodeURIComponent].
  destruct (uriUnescaped c) eqn:Hu.
  { destruct (uriUnescaped_not_surrogate c Hu) as [Hl Ht].
    rewrite Hl, Ht in Hw. cbn in Hw.
    destruct (IH rest ltac:(lia) Hw) as [e' He']. rewrite He'.
    eexists; reflexivity. }
  destruct (isLeadingSurrogate c) eqn:Hl.
  - destruct rest as [|c2 rest']; [discriminate Hw|].
    apply andb_true_iff in Hw as [Ht Hw]. cbn [length] in Hn.
    destruct (IH rest' ltac:(lia) Hw) as [e' He'].
    rewrite Ht, He'. eexists; reflexivity.
  - apply andb_true_iff in Hw as [Ht Hw]. apply negb_true_iff in Ht.
    destruct (IH rest ltac:(lia) Hw) as [e' He']. rewrite He', Ht.
    eexists; reflexivity.
Qed.

Lemma encodeURIComponent_nonempty (v e : jsstring) :
  encodeURIComponent v = Some e -> v <> [] -> e <> [].
Proof.
  destruct v as [|c rest]; [congruence|]. intros He _ ->.
  cbn [encodeURIComponent] in He.
  destruct (uriUnescaped c).
  { destruct (encodeURIComponent rest); discriminate He. }
  assert (Hne : forall cp (l : jsstring), pctOctets (utf8Encode cp) ++ l <> []).
  { intros cp l Hx. pose proof (pctOctets_utf8_nonempty cp l) as Hlen.
    rewrite Hx in Hlen. cbn in Hlen. lia. }
  destruct (isLeadingSurrogate c).
  { destruct rest as [|c2 rest']; [discriminate He|].
    destruct (isTrailingSurrogate c2); [|discriminate He].
    destruct (encodeURIComponent rest') as [e'|]; [|discriminate He].
    cbn in He. injection He as He. exact (Hne _ _ He). }
  destruct (isTrailingSurrogate c); [discriminate He|].
  destruct (encodeURIComponent rest) as [e'|]; [|discriminate He].
  cbn in He. injection He as He. exact (Hne _ _ He).
Qed.

(** ** The fallback scan of the router state *)

Lemma FlightRouterState_nested_ind (P : FlightRouterState -> Prop) :
  (forall seg routes url refresh root,
      Forall (fun kv => P (snd kv)) routes ->
      P (RouterState seg routes url refresh root)) ->
  forall st, P st.
Proof.
  intros step. fix IH 1. intros [seg routes url refresh root].
  apply step. induction routes as [|kv routes IHroutes].
  - apply List.Forall_nil.
  - apply List.Forall_cons; [apply IH | exact IHroutes].
Qed.


Section Fallback.
Variable hs : SegmentHelpers.

(** The contract of [canSegmentBeOverridden] that the type guard in
    [findDynamicParamFromRouterState] relies on: only a dynamic
    ([param, value, type]) descriptor can be overridden. *)
Hypothesis overridable_is_array : forall segment treeSegment,
  canSegmentBeOverridden hs segment treeSegment = true ->
  isArraySegment treeSegment = true.


End Fallback.

(** ** Segment addressing: the resolver *)

Example resolve_literal :
  makeGetDynamicParamFromSegment sampleHelpers ∅ None (js "blog") = Normal None.
Proof. reflexivity. Qed.

Example resolve_scalar :
  makeGetDynamicParamFromSegment sampleHelpers {[ js "slug" := PString (js "a b") ]} None
    (js "[slug]")
  = Normal (Some (mkDynamicParam (js "slug") (Some (PString (js "a%20b")))
                    (SegDyn (js "slug") (js "a%20b") (js "d")) (js "d"))).
Proof. vm_compute. reflexivity. Qed.

Example resolve_catchall :
  makeGetDynamicParamFromSegment sampleHelpers
    {[ js "path" := PArray [js "a/b"; js "c"] ]} None (js "[...path]")
  = Normal (Some (mkDynamicParam (js "path") (Some (PArray [js "a%2Fb"; js "c"]))
                    (SegDyn (js "path") (js "a%2Fb/c") (js "c")) (js "c"))).
Proof. vm_compute. reflexivity. Qed.

Example resolve_optional_catchall_absent :
  makeGetDynamicParamFromSegment sampleHelpers ∅ (Some sampleRouterState) (js "[[...path]]")
  = Normal (Some (mkDynamicParam (js "path") None (SegDyn (js "path") [] (js "oc")) (js "oc"))).
Proof. vm_compute. reflexivity. Qed.

(** An unpaired surrogate makes [encodeURIComponent], and with it the
    resolver, throw. *)
Example resolve_lone_surrogate :
  makeGetDynamicParamFromSegment sampleHelpers {[ js "slug" := PString [0xD800] ]} None
    (js "[slug]")
  = Throw URIError.
Proof. vm_compute. reflexivity. Qed.



(** Three scalar string values the parameter mapping can hold for which
    no descriptor comes back: the empty string, which [!value] treats as
    absent; the [__NEXT_EMPTY_PARAM__] marker, which is deleted first; and
    an unpaired surrogate, on which [encodeURIComponent] throws. *)
Lemma resolve_scalar_without_descriptor :
  let resolve v :=
    makeGetDynamicParamFromSegment sampleHelpers {[ js "slug" := PString v ]} None (js "[slug]") in
  getSegmentParam sampleHelpers (js "[slug]") = Some (mkSegmentParam (js "slug") (js "dynamic")) /\
  resolve [] = Normal None /\
  resolve NEXT_EMPTY_PARAM = Normal None /\
  resolve [0xD800] = Throw URIError /\
  (forall v, In v [[]; NEXT_EMPTY_PARAM; [0xD800]] ->
     ({[ js "slug" := PString v ]} : gmap jsstring ParamValue) !! js "slug" = Some (PString v) /\
     ~ (exists dp e,
          resolve v = Normal (Some dp) /\
          dp_treeSegment dp = SegDyn (js "slug") e (dp_type dp) /\
          decodeURIComponent e = Some v)).
Proof.
  cbv zeta.
  assert (Hempty : makeGetDynamicParamFromSegment sampleHelpers
                     {[ js "slug" := PString [] ]} None (js "[slug]") = Normal None)
    by (vm_compute; reflexivity).
  assert (Hmarker : makeGetDynamicParamFromSegment sampleHelpers
                      {[ js "slug" := PString NEXT_EMPTY_PARAM ]} None (js "[slug]")
                    = Normal None)
    by (vm_compute; reflexivity).
  assert (Hlone : makeGetDynamicParamFromSegment sampleHelpers
                    {[ js "slug" := PString [0xD800] ]} None (js "[slug]")
                  = Throw URIError)
    by (vm_compute; reflexivity).
  split; [vm_compute; reflexivity|].
  split; [exact Hempty|]. split; [exact Hmarker|]. split; [exact Hlone|].
  intros v [<- | [<- | [<- | []]]]; (split; [apply lookup_singleton_eq|]);
    intros (dp & e & Hdp & _).
  - rewrite Hempty in Hdp. discriminate Hdp.
  - rewrite Hmarker in Hdp. discriminate Hdp.
  - rewrite Hlone in Hdp. discriminate Hdp.
Qed.

(** C7 (amended): for a dynamic segment whose parameter value is a
    non-empty, well-formed string [v] other than the
    [__NEXT_EMPTY_PARAM__] marker, the resolver returns a DynamicParam
    whose value and tree-segment descriptor carry [encodeURIComponent v],
    and percent-decoding that encoded value gives [v] back. *)
Theorem resolve_scalar_round_trip (hs : SegmentHelpers)
    (params0 : gmap jsstring ParamValue) (provided : option FlightRouterState)
    (segment : jsstring) (sp : SegmentParam) (v : jsstring) :
  getSegmentParam hs segment = Some sp ->
  params0 !! sp_param sp = Some (PString v) ->
  isString v = true ->
  isWellFormed v = true ->
  v <> [] ->
  v <> NEXT_EMPTY_PARAM ->
  exists e,
    encodeURIComponent v = Some e /\
    makeGetDynamicParamFromSegment hs params0 provided segment =
    Normal (Some (mkDynamicParam (sp_param sp) (Some (PString e))
                    (SegDyn (sp_param sp) e (getShortDynamicParamType hs (sp_type sp)))
                    (getShortDynamicParamType hs (sp_type sp)))) /\
    decodeURIComponent e = Some v.
Proof.
  intros Hsp Hv Hstr Hwf Hne Hmark.
  destruct (encodeURIComponent_wellFormed (length v) v ltac:(lia) Hwf) as [e He].
  exists e. split; [exact He|]. split; [|exact (decode_encodeURIComponent v e Hstr He)].
  pose proof (encodeURIComponent_nonempty v e He Hne) as Hene.
  unfold makeGetDynamicParamFromSegment. rewrite Hsp, Hv.
  rewrite bool_decide_eq_false_2 by exact Hmark. rewrite He.
  cbn [falsy]. rewrite bool_decide_eq_false_2 by exact Hene. reflexivity.
Qed.

Lemma resolve_scalar_round_trip_witness :
  exists e,
    encodeURIComponent [0x63; 0xE9; 0x20; 0xD83D; 0xDE00] = Some e /\
    makeGetDynamicParamFromSegment sampleHelpers
      {[ js "slug" := PString [0x63; 0xE9; 0x20; 0xD83D; 0xDE00] ]} None (js "[slug]") =
    Normal (Some (mkDynamicParam (js "slug") (Some (PString e))
                    (SegDyn (js "slug") e (js "d")) (js "d"))) /\
    decodeURIComponent e = Some [0x63; 0xE9; 0x20; 0xD83D; 0xDE00].
Proof.
  apply (resolve_scalar_round_trip sampleHelpers
           {[ js "slug" := PString [0x63; 0xE9; 0x20; 0xD83D; 0xDE00] ]} None
           (js "[slug]") (mkSegmentParam (js "slug") (js "dynamic"))).
  - vm_compute. reflexivity.
  - vm_compute. reflexivity.
  - reflexivity.
  - reflexivity.
  - discriminate.
  - vm_compute. discriminate.
Defined.

(** ** The error handlers only touch the captured-error arrays *)

Section Handlers.
Variable W : World.

Lemma reported_frame (reports : Reports) (s : State) :
  res (reported W reports s) = res s /\
  store (reported W reports s) = store s /\
  heap (reported W reports s) = heap s /\
  extraRenderResultMeta (reported W reports s) = extraRenderResultMeta s /\
  streams (reported W reports s) = streams s /\
  trace (reported W reports s) = trace s.
Proof.
  unfold reported. revert s.
  induction reports as [|r reports IH]; intros s; [repeat split|].
  cbn [fold_left]. destruct (IH (errorHandler W (fst r) (snd r) s)) as (? & ? & ? & ? & ? & ?).
  unfold errorHandler, pushErrors in *. cbn in *. repeat split; congruence.
Qed.

Lemma reported_res reports s : res (reported W reports s) = res s.
Proof. apply reported_frame. Qed.

Lemma reported_store reports s : store (reported W reports s) = store s.
Proof. apply reported_frame. Qed.

Lemma reported_heap reports s : heap (reported W reports s) = heap s.
Proof. apply reported_frame. Qed.

Lemma reported_meta reports s :
  extraRenderResultMeta (reported W reports s) = extraRenderResultMeta s.
Proof. apply reported_frame. Qed.

Lemma reported_streams reports s : streams (reported W reports s) = streams s.
Proof. apply reported_frame. Qed.

Lemma reported_trace reports s : trace (reported W reports s) = trace s.
Proof. apply reported_frame. Qed.

Lemma reported_nil s : reported W [] s = s.
Proof. reflexivity. Qed.

End Handlers.

Lemma streamEvents_app (t1 t2 : list Event) :
  streamEvents (t1 ++ t2) = streamEvents t1 ++ streamEvents t2.
Proof. apply List.filter_app. Qed.

Ltac run_M :=
  cbv beta iota zeta delta
    [bindM ret gets modify emit when throw tryCatch await awaitUnit report
     cloneTransformStream newTransformStream unchunk fst snd].

Ltac simp_state :=
  repeat (cbn [res store heap capturedErrors allCapturedErrors extraRenderResultMeta
               streams trace withRes withStore withHeap withMeta pushErrors allocStream
               logEvent setStatusCode setHeader statusCode res_headers fst snd
               setRevalidate isStaticGeneration negb andb orb] in *;
          rewrite ?reported_res, ?reported_store, ?reported_heap, ?reported_meta,
            ?reported_streams, ?reported_trace in *).

Lemma htmlUnchunks_app (t1 t2 : list Event) :
  htmlUnchunks (t1 ++ t2) = htmlUnchunks t1 ++ htmlUnchunks t2.
Proof. apply List.filter_app. Qed.

Lemma In_htmlUnchunks (html : HtmlStream) (t : list Event) :
  In (EvUnchunk (HtmlBody html)) t -> In (EvUnchunk (HtmlBody html)) (htmlUnchunks t).
Proof. intros Hin. apply List.filter_In. split; [exact Hin | reflexivity]. Qed.

Ltac simp_events :=
  rewrite ?streamEvents_app, ?htmlUnchunks_app;
  cbn [streamEvents htmlUnchunks List.filter isStreamEvent isHtmlUnchunk app];
  rewrite ?app_nil_r, <- ?app_assoc; cbn [app].

(** ** Error recovery *)

Section Recovery.
Variable W : World.

Lemma rethrowFinal_throws {A} (finalErr : Error) (s : State) :
  exists e s',
    @rethrowFinal W A finalErr s = (Throw e, s') /\
    (s' = s \/ s' = logEvent EvBailOnNotFound s).
Proof.
  unfold rethrowFinal. run_M.
  destruct (bool_decide (NODE_ENV W = js "development") && isNotFoundError W finalErr).
  - destruct (bailOnNotFound W) as [e|]; eexists _, _; split; try reflexivity; right; reflexivity.
  - eexists _, _. split; [reflexivity | left; reflexivity].
Qed.

(** Whatever the error, the status phase completes and touches nothing
    but the response (and the trace, for the warning). *)
Lemma setErrorStatus_frame (cl : Closure) (err : Error) (s : State) :
  exists flags s',
    setErrorStatus W cl err s = (Normal flags, s') /\
    store s' = store s /\ heap s' = heap s /\
    capturedErrors s' = capturedErrors s /\
    allCapturedErrors s' = allCapturedErrors s /\
    extraRenderResultMeta s' = extraRenderResultMeta s /\
    streams s' = streams s /\
    (trace s' = trace s \/ trace s' = trace s ++ [EvWarn]).
Proof.
  unfold setErrorStatus. run_M.
  destruct (bool_decide (err_digest err = Some (NEXT_DYNAMIC_NO_SSR_CODE W)));
    destruct (isNotFoundError W err); destruct (isRedirectError W err);
    try destruct (err_mutableCookies err) as [cookies|];
    try destruct (appendMutableCookies W cookies) as [[|] values];
    simp_state;
    repeat match goal with
           | |- context [if ?b then _ else _] => destruct b
           end;
    eexists _, _; (split; [reflexivity|]); simp_state; repeat split; auto.
Qed.

Lemma setErrorStatus_not_found (cl : Closure) (err : Error) (s : State) :
  isNotFoundError W err = true ->
  isRedirectError W err = false ->
  exists s',
    setErrorStatus W cl err s = (Normal (true, false), s') /\
    res s' = setStatusCode 404 (res s) /\
    store s' = store s /\ streams s' = streams s /\
    (trace s' = trace s \/ trace s' = trace s ++ [EvWarn]).
Proof.
  intros Hnf Hredir.
  destruct (setErrorStatus_frame cl err s)
    as (flags & s' & Hrun & Hstore & _ & _ & _ & _ & Hstreams & Htrace).
  exists s'. revert Hrun. unfold setErrorStatus. run_M. rewrite Hnf, Hredir.
  destruct (bool_decide (err_digest err = Some (NEXT_DYNAMIC_NO_SSR_CODE W)));
    simp_state; intros [= <- <-]; simp_state; repeat split; auto.
Qed.

Lemma setErrorStatus_redirect (cl : Closure) (err : Error) (s : State) :
  isRedirectError W err = true ->
  let code := getRedirectStatusCodeFromError W err in
  let location :=
    addPathPrefix (getURLFromRedirectError W err) (basePath (ctx_renderOpts (cl_ctx cl))) in
  let withCookies (r : ServerResponse) :=
    match err_mutableCookies err with
    | Some cookies =>
      if fst (appendMutableCookies W cookies)
      then setHeader (js "set-cookie") (HArray (snd (appendMutableCookies W cookies))) r
      else r
    | None => r
    end in
  exists s',
    setErrorStatus W cl err s = (Normal (code =? 404, true), s') /\
    res s' = setHeader (js "Location") (HString location)
               (withCookies (setStatusCode code (res s))) /\
    store s' = store s /\ streams s' = streams s /\
    (trace s' = trace s \/ trace s' = trace s ++ [EvWarn]).
Proof.
  intros Hredir code location withCookies.
  destruct (setErrorStatus_frame cl err s)
    as (flags & s' & Hrun & Hstore & _ & _ & _ & _ & Hstreams & Htrace).
  exists s'. revert Hrun. unfold setErrorStatus. run_M. rewrite Hredir.
  subst withCookies. cbv beta.
  destruct (bool_decide (err_digest err = Some (NEXT_DYNAMIC_NO_SSR_CODE W)));
    destruct (isNotFoundError W err);
    destruct (err_mutableCookies err) as [cookies|];
    try destruct (appendMutableCookies W cookies) as [[|] values];
    simp_state; fold code; destruct (code =? 404);
    simp_state; intros [= <- <-]; simp_state; repeat split; auto.
Qed.

(** The error shell, step by step. *)
Lemma renderErrorShell_run (cl : Closure) (tree0 : LoaderTree) (formState : option nat)
    (is404 hasRedirectError : bool) (s : State) :
  let clone := streams s in
  let errorType :=
    if is404 then Some ErrorType_not_found
    else if hasRedirectError then Some ErrorType_redirect else None in
  let page := errorPageProps W cl tree0 formState errorType (statusCode (res s) >=? 400) clone in
  let shell := FizzStreamOf (ErrorPageElement page) in
  let options := errorContinueOptions cl clone formState (isStaticGeneration (store s)) in
  let s1 :=
    logEvent (EvRenderErrorPage page)
      (logEvent (EvCloneTransformStream
                   (inlinedDataTransformStream (cl_serverComponentsRenderOpts cl)) clone)
         (allocStream s)) in
  renderErrorShell W cl tree0 formState is404 hasRedirectError s =
  match renderToInitialFizzStream W page with
  | (r1, Some e) => rethrowFinal W e (reported W r1 s1)
  | (r1, None) =>
    let s2 := logEvent (EvContinue shell options) (reported W r1 s1) in
    match continueFizzStream W shell options with
    | (r2, Some e) => rethrowFinal W e (reported W r2 s2)
    | (r2, None) => (Normal (ContinuedFizzStream shell options), reported W r2 s2)
    end
  end.
Proof.
  intros clone errorType page shell options s1.
  unfold renderErrorShell. run_M. simp_state.
  fold clone. fold errorType. fold page. fold shell.
  destruct (renderToInitialFizzStream W page) as [r1 [e|]]; [reflexivity|].
  simp_state. fold options.
  destruct (continueFizzStream W shell options) as [r2 [e|]]; reflexivity.
Qed.

(** What the error shell leaves behind, and what it may return. *)
Lemma renderErrorShell_outcome (cl : Closure) (tree0 : LoaderTree) (formState : option nat)
    (is404 hasRedirectError : bool) (s : State) :
  let orig := inlinedDataTransformStream (cl_serverComponentsRenderOpts cl) in
  let clone := streams s in
  let errorType :=
    if is404 then Some ErrorType_not_found
    else if hasRedirectError then Some ErrorType_redirect else None in
  let page := errorPageProps W cl tree0 formState errorType (statusCode (res s) >=? 400) clone in
  let shell := FizzStreamOf (ErrorPageElement page) in
  let options := errorContinueOptions cl clone formState (isStaticGeneration (store s)) in
  let out := renderErrorShell W cl tree0 formState is404 hasRedirectError s in
  res (snd out) = res s /\ store (snd out) = store s /\ heap (snd out) = heap s /\
  extraRenderResultMeta (snd out) = extraRenderResultMeta s /\
  streams (snd out) = S (streams s) /\
  (exists rest,
      streamEvents (trace (snd out)) =
      streamEvents (trace s) ++ EvCloneTransformStream orig clone :: EvRenderErrorPage page :: rest /\
      (rest = [] \/ rest = [EvContinue shell options])) /\
  In (EvRenderErrorPage page) (trace (snd out)) /\
  (snd (renderToInitialFizzStream W page) = None ->
   snd (continueFizzStream W shell options) = None ->
   fst out = Normal (ContinuedFizzStream shell options)) /\
  (forall html, fst out = Normal html -> html = ContinuedFizzStream shell options).
Proof.
  intros orig clone errorType page shell options out. subst out.
  rewrite renderErrorShell_run. fold orig clone errorType page shell options.
  destruct (renderToInitialFizzStream W page) as [r1 [e1|]].
  { match goal with |- context [rethrowFinal W e1 ?st] =>
      destruct (rethrowFinal_throws (A:=HtmlStream) e1 st) as (e' & s' & -> & [-> | ->]) end;
      simp_state; repeat split; try discriminate;
      try (rewrite ?in_app_iff; cbn; tauto);
      exists []; (split; [simp_events; reflexivity | left; reflexivity]). }
  cbv zeta. destruct (continueFizzStream W shell options) as [r2 [e2|]].
  { match goal with |- context [rethrowFinal W e2 ?st] =>
      destruct (rethrowFinal_throws (A:=HtmlStream) e2 st) as (e' & s' & -> & [-> | ->]) end;
      simp_state; repeat split; try discriminate;
      try (rewrite ?in_app_iff; cbn; tauto);
      exists [EvContinue shell options];
      (split; [simp_events; reflexivity | right; reflexivity]). }
  simp_state. repeat split; try (rewrite ?in_app_iff; cbn; tauto).
  - exists [EvContinue shell options]. split; [simp_events; reflexivity | right; reflexivity].
  - intros html [= <-]. reflexivity.
Qed.

Lemma bodyResult_render_throws (cl : Closure) (asNotFound : bool) (tree0 : LoaderTree)
    (formState : option nat) (s : State) (reports : Reports) (err : Error) :
  rendererRender W (documentProps cl asNotFound tree0 formState) = (reports, Throw err) ->
  bodyResult W cl asNotFound tree0 formState s =
  recover W cl tree0 formState err
    (reported W reports (logEvent (EvRender (documentProps cl asNotFound tree0 formState)) s)).
Proof.
  intros Hrender. unfold bodyResult. run_M. rewrite Hrender. cbn [fst snd].
  destruct (recover W cl tree0 formState err _) as [[html|e] s']; reflexivity.
Qed.

Lemma bodyResult_render_postponed (cl : Closure) (asNotFound : bool) (tree0 : LoaderTree)
    (formState : option nat) (s : State) (reports : Reports) (p : nat) :
  let props := documentProps cl asNotFound tree0 formState in
  rendererRender W props = (reports, Normal (Some p)) ->
  bodyResult W cl asNotFound tree0 formState s =
  (Normal (PostponedStream (FizzStreamOf (DocumentElement props))),
   withMeta (setMetaPostponed (Some p)) (reported W reports (logEvent (EvRender props) s))).
Proof.
  intros props Hrender. unfold bodyResult. run_M. fold props. rewrite Hrender. reflexivity.
Qed.

Lemma bodyResult_render_completes (cl : Closure) (asNotFound : bool) (tree0 : LoaderTree)
    (formState : option nat) (s : State) (reports : Reports) :
  let props := documentProps cl asNotFound tree0 formState in
  let stream := FizzStreamOf (DocumentElement props) in
  let options := documentContinueOptions cl (isStaticGeneration (store s)) in
  let s1 := reported W reports (logEvent (EvRender props) s) in
  rendererRender W props = (reports, Normal None) ->
  bodyResult W cl asNotFound tree0 formState s =
  if truthy (postponed (ctx_renderOpts (cl_ctx cl))) then
    match continuePostponedFizzStream W stream options with
    | (r, None) => (Normal (ContinuedPostponedFizzStream stream options),
                    reported W r (logEvent (EvContinuePostponed stream options) s1))
    | (r, Some e) => (Throw e, reported W r (logEvent (EvContinuePostponed stream options) s1))
    end
  else
    match continueFizzStream W stream options with
    | (r, None) => (Normal (ContinuedFizzStream stream options),
                    reported W r (logEvent (EvContinue stream options) s1))
    | (r, Some e) => (Throw e, reported W r (logEvent (EvContinue stream options) s1))
    end.
Proof.
  intros props stream options s1 Hrender. unfold bodyResult. run_M. fold props.
  rewrite Hrender. simp_state. fold stream. fold options.
  destruct (truthy (postponed (ctx_renderOpts (cl_ctx cl)))).
  - destruct (continuePostponedFizzStream W stream options) as [r [e|]]; reflexivity.
  - destruct (continueFizzStream W stream options) as [r [e|]]; reflexivity.
Qed.

(** The catch block once the re-thrown errors are excluded. *)
Lemma recover_run (cl : Closure) (tree0 : LoaderTree) (formState : option nat)
    (err : Error) (s : State) :
  isStaticGenBailout err = false ->
  err_postpone err = false ->
  recover W cl tree0 formState err s =
  match setErrorStatus W cl err s with
  | (Normal flags, s') => renderErrorShell W cl tree0 formState (fst flags) (snd flags) s'
  | (Throw e, s') => (Throw e, s')
  end.
Proof. intros Hbail Hpost. unfold recover. rewrite Hbail, Hpost. reflexivity. Qed.

End Recovery.

(** ** The three classes of document-render failure *)

Section RecoveryClaims.
Variable W : World.

(** C3: a static-generation bailout error thrown by the document render is
    re-thrown at once: [bodyResult] rejects with that very error, no
    stream is cloned, no error shell is rendered, and the response (status
    and headers) and the store are left as they were. *)
Theorem bailout_is_rethrown (cl : Closure) (asNotFound : bool)
    (tree0 : LoaderTree) (formState : option nat) (s : State)
    (reports : Reports) (err : Error) :
  rendererRender W (documentProps cl asNotFound tree0 formState) = (reports, Throw err) ->
  isStaticGenBailout err = true ->
  let out := bodyResult W cl asNotFound tree0 formState s in
  fst out = Throw err /\
  res (snd out) = res s /\
  store (snd out) = store s /\
  streams (snd out) = streams s /\
  trace (snd out) = trace s ++ [EvRender (documentProps cl asNotFound tree0 formState)].
Proof.
  intros Hrender Hbail out. subst out.
  rewrite (bodyResult_render_throws W _ _ _ _ _ _ _ Hrender).
  unfold recover. rewrite Hbail. unfold throw. simp_state. repeat split.
Qed.

(** C1 (amended): when the document render fails with a NotFoundSignal
    (an error [isNotFoundError] recognises, that is neither a redirect
    nor one of the re-thrown bailout and postpone errors), the
    orchestrator sets the status code to 404 and renders the error shell
    with errorType 'not-found' on a clone of the inlined-data stream; the
    shell, not the requested page, is the body whenever that fallback
    render and its continuation succeed, and nothing else is ever
    returned as the body. *)
Theorem not_found_recovery (cl : Closure) (asNotFound : bool)
    (tree0 : LoaderTree) (formState : option nat) (s : State)
    (reports : Reports) (err : Error) :
  rendererRender W (documentProps cl asNotFound tree0 formState) = (reports, Throw err) ->
  isStaticGenBailout err = false ->
  err_postpone err = false ->
  isNotFoundError W err = true ->
  isRedirectError W err = false ->
  let out := bodyResult W cl asNotFound tree0 formState s in
  let clone := streams s in
  let page := errorPageProps W cl tree0 formState (Some ErrorType_not_found) true clone in
  let options := errorContinueOptions cl clone formState (isStaticGeneration (store s)) in
  let shell := FizzStreamOf (ErrorPageElement page) in
  statusCode (res (snd out)) = 404 /\
  In (EvRenderErrorPage page) (trace (snd out)) /\
  (snd (renderToInitialFizzStream W page) = None ->
   snd (continueFizzStream W shell options) = None ->
   fst out = Normal (ContinuedFizzStream shell options)) /\
  (forall html, fst out = Normal html -> html = ContinuedFizzStream shell options).
Proof.
  intros Hrender Hbail Hpost Hnf Hredir out clone page options shell. subst out.
  rewrite (bodyResult_render_throws W _ _ _ _ _ _ _ Hrender).
  set (s0 := reported W reports _).
  assert (Hs0 : store s0 = store s /\ streams s0 = streams s)
    by (subst s0; simp_state; auto).
  destruct Hs0 as (Hstore0 & Hstreams0).
  rewrite (recover_run W _ _ _ _ _ Hbail Hpost).
  destruct (setErrorStatus_not_found W cl err s0 Hnf Hredir)
    as (s1 & -> & Hres1 & Hstore1 & Hstreams1 & _).
  cbn [fst snd].
  pose proof (renderErrorShell_outcome W cl tree0 formState true false s1) as Hshell.
  cbv zeta in Hshell. rewrite Hres1, Hstore1, Hstreams1, Hstore0, Hstreams0 in Hshell.
  cbn [statusCode setStatusCode] in Hshell. change (404 >=? 400) with true in Hshell.
  destruct Hshell as (Hres & _ & _ & _ & _ & _ & Hin & Hok & Honly).
  rewrite Hres. repeat split; assumption.
Qed.

(** C2: when the document render fails with a RedirectSignal whose status
    is 307 and whose target is [/login], the status code becomes 307, the
    [Location] header is the target prefixed with the configured
    basePath (so it ends in [/login]), the mutable cookies
    [appendMutableCookies] appended are set as the [set-cookie] header,
    and the only body ever returned is the error shell (rendered with
    errorType 'redirect'), which is returned whenever its render and
    continuation succeed. *)
Theorem redirect_recovery (cl : Closure) (asNotFound : bool)
    (tree0 : LoaderTree) (formState : option nat) (s : State)
    (reports : Reports) (err : Error) :
  rendererRender W (documentProps cl asNotFound tree0 formState) = (reports, Throw err) ->
  isStaticGenBailout err = false ->
  err_postpone err = false ->
  isRedirectError W err = true ->
  getRedirectStatusCodeFromError W err = 307 ->
  getURLFromRedirectError W err = js "/login" ->
  let out := bodyResult W cl asNotFound tree0 formState s in
  let clone := streams s in
  let page := errorPageProps W cl tree0 formState (Some ErrorType_redirect) false clone in
  let options := errorContinueOptions cl clone formState (isStaticGeneration (store s)) in
  let shell := FizzStreamOf (ErrorPageElement page) in
  statusCode (res (snd out)) = 307 /\
  (exists location,
      getHeader (res (snd out)) (js "Location") = Some (HString location) /\
      location = addPathPrefix (js "/login") (basePath (ctx_renderOpts (cl_ctx cl))) /\
      endsWith location (js "/login")) /\
  (forall cookies values,
      err_mutableCookies err = Some cookies ->
      appendMutableCookies W cookies = (true, values) ->
      getHeader (res (snd out)) (js "set-cookie") = Some (HArray values)) /\
  (forall html, fst out = Normal html -> html = ContinuedFizzStream shell options) /\
  (snd (renderToInitialFizzStream W page) = None ->
   snd (continueFizzStream W shell options) = None ->
   fst out = Normal (ContinuedFizzStream shell options)).
Proof.
  intros Hrender Hbail Hpost Hredir Hcode Hurl out clone page options shell. subst out.
  rewrite (bodyResult_render_throws W _ _ _ _ _ _ _ Hrender).
  set (s0 := reported W reports _).
  assert (Hs0 : store s0 = store s /\ streams s0 = streams s)
    by (subst s0; simp_state; auto).
  destruct Hs0 as (Hstore0 & Hstreams0).
  rewrite (recover_run W _ _ _ _ _ Hbail Hpost).
  destruct (setErrorStatus_redirect W cl err s0 Hredir)
    as (s1 & -> & Hres1 & Hstore1 & Hstreams1 & _).
  rewrite Hcode, Hurl in Hres1. rewrite Hcode. change (307 =? 404) with false.
  cbn [fst snd].
  pose proof (renderErrorShell_outcome W cl tree0 formState false true s1) as Hshell.
  cbv zeta in Hshell. rewrite Hstore1, Hstreams1, Hstore0, Hstreams0 in Hshell.
  assert (Hstatus : statusCode (res s1) = 307).
  { rewrite Hres1. cbn [setHeader statusCode].
    destruct (err_mutableCookies err) as [cookies|]; [|reflexivity].
    destruct (fst (appendMutableCookies W cookies)); reflexivity. }
  rewrite Hstatus in Hshell. change (307 >=? 400) with false in Hshell.
  destruct Hshell as (Hres & _ & _ & _ & _ & _ & _ & Hok & Honly).
  rewrite Hres. repeat split; try assumption.
  - eexists. split; [|split; [reflexivity|]].
    + rewrite Hres1. unfold getHeader, setHeader. cbn [res_headers].
      apply lookup_insert_eq.
    + unfold addPathPrefix, endsWith.
      destruct (basePath (ctx_renderOpts (cl_ctx cl))) as [prefix|].
      * exists prefix. reflexivity.
      * exists []. reflexivity.
  - intros cookies values Hcookies Happend. rewrite Hres1, Hcookies, Happend.
    unfold getHeader, setHeader. cbn [res_headers fst snd].
    rewrite lookup_insert_ne by (vm_compute; discriminate).
    apply lookup_insert_eq.
Qed.

End RecoveryClaims.

Lemma bailout_is_rethrown_witness :
  let W := sampleWorld ([], Throw bailoutError) None None (Normal []) ([], None) in
  let out := bodyResult W sampleClosure false sampleTree None (sampleState true) in
  fst out = Throw bailoutError /\
  res (snd out) = res (sampleState true) /\
  store (snd out) = store (sampleState true) /\
  streams (snd out) = streams (sampleState true) /\
  trace (snd out) =
    trace (sampleState true) ++ [EvRender (documentProps sampleClosure false sampleTree None)].
Proof.
  intros W.
  apply (bailout_is_rethrown W sampleClosure false sampleTree None (sampleState true)
           [] bailoutError); reflexivity.
Defined.

(** A NotFoundSignal whose error shell cannot be rendered either: the
    status code is 404, but [bodyResult] rejects with the fallback's
    failure and returns no body. *)
Lemma not_found_shell_failure_propagates :
  let shellError := plainError (js "error shell failed") in
  let W := sampleWorld ([], Throw notFoundError) (Some shellError) None (Normal []) ([], None) in
  let out := bodyResult W sampleClosure false sampleTree None (sampleState false) in
  rendererRender W (documentProps sampleClosure false sampleTree None)
    = ([], Throw notFoundError) /\
  isNotFoundError W notFoundError = true /\
  statusCode (res (snd out)) = 404 /\
  fst out = Throw shellError /\
  ~ (exists html, fst out = Normal html).
Proof.
  cbv zeta. split; [reflexivity|]. split; [reflexivity|].
  assert (Hout : fst (bodyResult
                        (sampleWorld ([], Throw notFoundError)
                           (Some (plainError (js "error shell failed"))) None (Normal []) ([], None))
                        sampleClosure false sampleTree None (sampleState false))
                 = Throw (plainError (js "error shell failed")))
    by (vm_compute; reflexivity).
  split; [vm_compute; reflexivity|]. split; [exact Hout|].
  intros [html Hhtml]. rewrite Hout in Hhtml. discriminate Hhtml.
Qed.

Lemma not_found_recovery_witness :
  let W := sampleWorld ([], Throw notFoundError) None None (Normal []) ([], None) in
  let out := bodyResult W sampleClosure false sampleTree None (sampleState false) in
  let page :=
    errorPageProps W sampleClosure sampleTree None (Some ErrorType_not_found) true 1%nat in
  let options := errorContinueOptions sampleClosure 1%nat None false in
  let shell := FizzStreamOf (ErrorPageElement page) in
  statusCode (res (snd out)) = 404 /\
  In (EvRenderErrorPage page) (trace (snd out)) /\
  (snd (renderToInitialFizzStream W page) = None ->
   snd (continueFizzStream W shell options) = None ->
   fst out = Normal (ContinuedFizzStream shell options)) /\
  (forall html, fst out = Normal html -> html = ContinuedFizzStream shell options).
Proof.
  intros W.
  apply (not_found_recovery W sampleClosure false sampleTree None (sampleState false)
           [] notFoundError); reflexivity.
Defined.

Lemma redirect_recovery_witness :
  let W := sampleWorld ([], Throw redirectError) None None (Normal []) ([], None) in
  let out := bodyResult W sampleClosure false sampleTree None (sampleState false) in
  let page :=
    errorPageProps W sampleClosure sampleTree None (Some ErrorType_redirect) false 1%nat in
  let options := errorContinueOptions sampleClosure 1%nat None false in
  let shell := FizzStreamOf (ErrorPageElement page) in
  statusCode (res (snd out)) = 307 /\
  (exists location,
      getHeader (res (snd out)) (js "Location") = Some (HString location) /\
      location = addPathPrefix (js "/login") (basePath (ctx_renderOpts (cl_ctx sampleClosure))) /\
      endsWith location (js "/login")) /\
  (forall cookies values,
      err_mutableCookies redirectError = Some cookies ->
      appendMutableCookies W cookies = (true, values) ->
      getHeader (res (snd out)) (js "set-cookie") = Some (HArray values)) /\
  (forall html, fst out = Normal html -> html = ContinuedFizzStream shell options) /\
  (snd (renderToInitialFizzStream W page) = None ->
   snd (continueFizzStream W shell options) = None ->
   fst out = Normal (ContinuedFizzStream shell options)).
Proof.
  intros W.
  apply (redirect_recovery W sampleClosure false sampleTree None (sampleState false)
           [] redirectError); reflexivity.
Defined.

Example redirect_response :
  let W := sampleWorld ([], Throw redirectError) None None (Normal []) ([], None) in
  let out := bodyResult W sampleClosure false sampleTree None (sampleState false) in
  statusCode (res (snd out)) = 307 /\
  getHeader (res (snd out)) (js "Location") = Some (HString (js "/docs/login")) /\
  getHeader (res (snd out)) (js "set-cookie") = Some (HArray [js "session=1"]).
Proof. vm_compute. repeat split. Qed.

(** ** Frame rules *)

Section Frame.
Context {X : Type} (proj : State -> X).

Lemma preserves_ret {A} (a : A) : preserves proj (ret a).
Proof. intros s. reflexivity. Qed.

Lemma preserves_throw {A} (e : Error) : preserves proj (@throw A e).
Proof. intros s. reflexivity. Qed.

Lemma preserves_gets {A} (f : State -> A) : preserves proj (gets f).
Proof. intros s. reflexivity. Qed.

Lemma preserves_modify (f : State -> State) :
  (forall s, proj (f s) = proj s) -> preserves proj (modify f).
Proof. intros Hf s. apply Hf. Qed.

Lemma preserves_bind {A B} (m : M A) (k : A -> M B) :
  preserves proj m -> (forall a, preserves proj (k a)) -> preserves proj (bindM m k).
Proof.
  intros Hm Hk s. unfold bindM. specialize (Hm s).
  destruct (m s) as [[a|e] s']; cbn [snd] in *; [rewrite Hk|]; exact Hm.
Qed.

Lemma preserves_tryCatch {A} (m : M A) (h : Error -> M A) :
  preserves proj m -> (forall e, preserves proj (h e)) -> preserves proj (tryCatch m h).
Proof.
  intros Hm Hh s. unfold tryCatch. specialize (Hm s).
  destruct (m s) as [[a|e] s']; cbn [snd] in *; [|rewrite Hh]; exact Hm.
Qed.

Lemma preserves_when (b : bool) (m : M unit) :
  preserves proj m -> preserves proj (when b m).
Proof. intros Hm. destruct b; [exact Hm | apply preserves_ret]. Qed.

(** What follows a step does not show in an aspect it preserves. *)
Lemma bind_preserved_after {A B} (m : M A) (k : A -> M B) (s : State) :
  (forall a, preserves proj (k a)) ->
  proj (snd (bindM m k s)) = proj (snd (m s)).
Proof.
  intros Hk. unfold bindM. destruct (m s) as [[a|e] s']; [apply Hk | reflexivity].
Qed.

End Frame.

Section FrameCollaborators.
Variable W : World.
Context {X : Type} (proj : State -> X).
Hypothesis proj_reported : forall reports s, proj (reported W reports s) = proj s.

Lemma preserves_await {A} (call : Reports * Completion A) : preserves proj (await W call).
Proof.
  unfold await, report. apply preserves_bind.
  - apply preserves_modify. intros s. apply proj_reported.
  - intros _. destruct (snd call); [apply preserves_ret | apply preserves_throw].
Qed.

Lemma preserves_awaitUnit (call : Reports * option Error) : preserves proj (awaitUnit W call).
Proof.
  unfold awaitUnit, report. apply preserves_bind.
  - apply preserves_modify. intros s. apply proj_reported.
  - intros _. destruct (snd call); [apply preserves_throw | apply preserves_ret].
Qed.

End FrameCollaborators.

Ltac frame_step W :=
  match goal with
  | |- preserves _ (bindM _ _) => apply preserves_bind; [|intros]
  | |- preserves _ (ret _) => apply preserves_ret
  | |- preserves _ (throw _) => apply preserves_throw
  | |- preserves _ (gets _) => apply preserves_gets
  | |- preserves _ (when _ _) => apply preserves_when
  | |- preserves _ (tryCatch _ _) => apply preserves_tryCatch; [|intros]
  | |- preserves _ (emit _) =>
      apply preserves_modify; intros; simp_state; simp_events; reflexivity
  | |- preserves _ (modify _) =>
      apply preserves_modify; intros; simp_state; simp_events; reflexivity
  | |- preserves _ (await _ _) =>
      apply (preserves_await W); intros; simp_state; reflexivity
  | |- preserves _ (awaitUnit _ _) =>
      apply (preserves_awaitUnit W); intros; simp_state; reflexivity
  | |- preserves _ (unchunk _ _) => unfold unchunk
  | |- preserves _ (if ?b then _ else _) => destruct b
  | |- preserves _ (match ?x with _ => _ end) => destruct x
  end.

Ltac frame W := repeat frame_step W.

Section FlightFrame.
Variable W : World.

Lemma generateFlight_heap ctx options : preserves heap (generateFlight W ctx options).
Proof. unfold generateFlight. frame W. Qed.

Lemma generateFlight_streams ctx options : preserves streams (generateFlight W ctx options).
Proof. unfold generateFlight. frame W. Qed.


Lemma stringifyFlightPayload_heap ctx eager :
  preserves heap (stringifyFlightPayload W ctx eager).
Proof.
  unfold stringifyFlightPayload. destruct eager; frame W. apply generateFlight_heap.
Qed.

Lemma stringifyFlightPayload_streams ctx eager :
  preserves streams (stringifyFlightPayload W ctx eager).
Proof.
  unfold stringifyFlightPayload. destruct eager; frame W. apply generateFlight_streams.
Qed.


End FlightFrame.

(** ** One call of [bodyResult] *)

Section BodyResultOutcome.
Variable W : World.

(** [bodyResult] never touches the query objects, and the stream events
    it leaves are those of one attempt on its own stream, followed at most
    by one recovery on a fresh clone. *)
Lemma bodyResult_outcome (cl : Closure) (asNotFound : bool) (tree0 : LoaderTree)
    (formState : option nat) (s : State) :
  let orig := inlinedDataTransformStream (cl_serverComponentsRenderOpts cl) in
  let out := bodyResult W cl asNotFound tree0 formState s in
  heap (snd out) = heap s /\
  exists evs,
    streamEvents (trace (snd out)) = streamEvents (trace s) ++ evs /\
    AttemptEvents orig (streams s) evs.
Proof.
  intros orig out. subst out.
  set (props := documentProps cl asNotFound tree0 formState).
  assert (Hprops : inlinedDataTransformStream (doc_options props) = orig) by reflexivity.
  destruct (rendererRender W props) as [reports [[p|]|err]] eqn:Hrender.
  - rewrite (bodyResult_render_postponed W _ _ _ _ _ _ _ Hrender). fold props. simp_state.
    split; [reflexivity|]. exists [EvRender props]. split; [simp_events; reflexivity|].
    apply AttemptOnly. exact Hprops.
  - rewrite (bodyResult_render_completes W _ _ _ _ _ _ Hrender). fold props.
    destruct (truthy (postponed (ctx_renderOpts (cl_ctx cl)))).
    + destruct (continuePostponedFizzStream W _ _) as [r [e|]]; simp_state; simp_events;
        (split; [reflexivity|]); eexists; (split; [reflexivity|]);
        apply AttemptContinuedPostponed; first [exact Hprops | reflexivity].
    + destruct (continueFizzStream W _ _) as [r [e|]]; simp_state; simp_events;
        (split; [reflexivity|]); eexists; (split; [reflexivity|]);
        apply AttemptContinued; first [exact Hprops | reflexivity].
  - rewrite (bodyResult_render_throws W _ _ _ _ _ _ _ Hrender). fold props.
    set (s0 := reported W reports (logEvent (EvRender props) s)).
    assert (Hs0 : heap s0 = heap s /\ streams s0 = streams s /\
                  streamEvents (trace s0) = streamEvents (trace s) ++ [EvRender props])
      by (subst s0; simp_state; simp_events; auto).
    destruct Hs0 as (Hheap0 & Hstreams0 & Hevents0).
    unfold recover.
    destruct (isStaticGenBailout err).
    { unfold throw. cbn [snd]. split; [exact Hheap0|]. exists [EvRender props].
      split; [exact Hevents0 | apply AttemptOnly; exact Hprops]. }
    destruct (err_postpone err).
    { run_M. simp_state. split; [exact Hheap0|]. exists [EvRender props].
      split; [exact Hevents0 | apply AttemptOnly; exact Hprops]. }
    unfold bindM.
    destruct (setErrorStatus_frame W cl err s0)
      as (flags & s1 & -> & _ & Hheap1 & _ & _ & _ & Hstreams1 & Htrace1).
    assert (Hevents1 : streamEvents (trace s1) = streamEvents (trace s0))
      by (destruct Htrace1 as [-> | ->]; [reflexivity | simp_events; reflexivity]).
    pose proof (renderErrorShell_outcome W cl tree0 formState (fst flags) (snd flags) s1)
      as Hshell.
    cbv zeta in Hshell.
    destruct Hshell as (_ & _ & Hheap & _ & _ & (rest & Hevents & Hrest) & _).
    split; [congruence|].
    rewrite Hstreams1, Hstreams0 in Hevents, Hrest.
    rewrite Hevents, Hevents1, Hevents0, <- app_assoc. cbn [app].
    eexists. split; [reflexivity|].
    destruct Hrest as [-> | ->].
    + apply AttemptShellFailed; [exact Hprops | reflexivity].
    + apply AttemptShell; [exact Hprops | reflexivity | reflexivity].
Qed.

(** After the document is rendered, [finishRender] only attaches
    metadata and materialises the HTML. *)
Lemma finishRender_outcome (cl : Closure) (payload : option ResultBody)
    (formState : option nat) (s : State) :
  let ctx := cl_ctx cl in
  let rendered := bodyResult W cl (isNotFoundPath ctx) (tree (ctx_renderOpts ctx)) formState s in
  let out := finishRender W cl payload formState s in
  heap (snd out) = heap (snd rendered) /\
  streamEvents (trace (snd out)) = streamEvents (trace (snd rendered)).
Proof.
  intros ctx rendered out. subst out rendered. unfold finishRender.
  split.
  - apply (bind_preserved_after heap). intros html. frame W.
  - apply (bind_preserved_after (fun s => streamEvents (trace s))). intros html. frame W.
Qed.

End BodyResultOutcome.

(** ** The whole request *)

Section WholeRequest.
Variable W : World.

(** The state in which the render mode is selected: the store's fetch
    metrics reset, and the caller's query copied and stripped. *)
Lemma renderToHTMLOrFlightImpl_run (req : IncomingMessage) (pagePath0 : jsstring)
    (query : loc) (renderOpts : RenderOpts) (s : State) :
  let copy := fresh (dom (heap s)) in
  let s1 :=
    withHeap (alter (fun o => foldr delete o (INTERNAL_QUERY_NAMES W)) copy)
      (withHeap (fun h => <[copy := default ∅ (h !! query)]> h)
         (withMeta (setMetaFetchMetrics (Some []))
            (withStore (setFetchMetrics (Some []))
               (if enableTainting renderOpts then logEvent EvTaint s else s)))) in
  let static := isStaticGeneration (store s) in
  let ctx := appRenderContext W req pagePath0 copy renderOpts static in
  renderToHTMLOrFlightImpl W req pagePath0 query renderOpts s =
  if hasHeader req (toLowerCase (RSC W)) && negb static then generateFlight W ctx None s1
  else
    bindM (stringifyFlightPayload W ctx (static || bool_decide (is_Some (postponed renderOpts))))
      (renderDocument W req ctx (negb (bool_decide (supportsDynamicHTML renderOpts = Some true))))
      s1.
Proof.
  intros copy s1 static ctx. subst s1 ctx static copy.
  unfold renderToHTMLOrFlightImpl, spreadQuery, stripInternalQueries.
  run_M. simp_state. cbn [setFetchMetrics isStaticGeneration fetchMetrics].
  destruct (enableTainting renderOpts);
    destruct (hasHeader req (toLowerCase (RSC W)));
    destruct (isStaticGeneration (store s)) eqn:Hstatic; simp_state;
    rewrite ?Hstatic; reflexivity.
Qed.

(** [bodyResult] and the rest of the document path leave the query
    objects alone. *)
Lemma bodyResult_heap cl asNotFound tree0 formState :
  preserves heap (bodyResult W cl asNotFound tree0 formState).
Proof. intros s. apply (bodyResult_outcome W). Qed.

Lemma finishRender_heap cl payload formState :
  preserves heap (finishRender W cl payload formState).
Proof.
  intros s. destruct (finishRender_outcome W cl payload formState s) as [-> _].
  apply bodyResult_heap.
Qed.

Lemma renderDocument_heap req ctx generateStatic payload :
  preserves heap (renderDocument W req ctx generateStatic payload).
Proof.
  unfold renderDocument, newTransformStream.
  repeat first
    [ apply finishRender_heap | apply bodyResult_heap | frame_step W ].
Qed.


(** C10: [renderToHTMLOrFlightImpl] never changes the query object the
    caller passed: the internal-only parameters are stripped from a fresh
    copy, so whatever the request and however the render ends, the
    caller's object holds what it held before. *)
Theorem caller_query_unchanged (req : IncomingMessage) (pagePath0 : jsstring)
    (query : loc) (renderOpts : RenderOpts) (s : State) (o : QueryObject) :
  heap s !! query = Some o ->
  let out := renderToHTMLOrFlightImpl W req pagePath0 query renderOpts s in
  let copy := fresh (dom (heap s)) in
  heap (snd out) !! query = Some o /\
  copy <> query /\
  heap (snd out) !! copy = Some (foldr delete o (INTERNAL_QUERY_NAMES W)).
Proof.
  intros Hquery out copy. subst out.
  assert (Hfresh : copy <> query).
  { intros Heq. apply (is_fresh (dom (heap s))). fold copy. rewrite Heq.
    apply elem_of_dom. eauto. }
  rewrite renderToHTMLOrFlightImpl_run. fold copy.
  set (s1 := withHeap _ (withHeap _ _)).
  assert (Hheap1 : heap s1 !! query = Some o /\
                   heap s1 !! copy = Some (foldr delete o (INTERNAL_QUERY_NAMES W))).
  { subst s1. destruct (enableTainting renderOpts); simp_state; rewrite Hquery; cbn [default];
      (split; [rewrite lookup_alter_ne, lookup_insert_ne by exact Hfresh; exact Hquery|]);
      rewrite lookup_alter_eq, lookup_insert_eq; reflexivity. }
  assert (Hheap : forall m : M RenderResult, preserves heap m ->
                    heap (snd (m s1)) !! query = Some o /\ copy <> query /\
                    heap (snd (m s1)) !! copy
                    = Some (foldr delete o (INTERNAL_QUERY_NAMES W))).
  { intros m Hm. rewrite (Hm s1). destruct Hheap1. auto. }
  destruct (hasHeader req (toLowerCase (RSC W)) && negb (isStaticGeneration (store s))).
  - apply Hheap. apply generateFlight_heap.
  - apply Hheap. apply preserves_bind.
    + apply stringifyFlightPayload_heap.
    + intros payload. apply renderDocument_heap.
Qed.


End WholeRequest.

(** ** One stream, one reader, one attempt *)





Section Streams.
Variable W : World.



End Streams.



Lemma caller_query_unchanged_witness :
  let W := sampleWorld ([], Normal None) None None (Normal []) ([], None) in
  let o : QueryObject :=
    {[ js "page" := HString (js "2"); js "__nextLocale" := HString (js "fr") ]} in
  let s := initialState sampleResponse (sampleStore false) {[ 0%nat := o ]} in
  let out := renderToHTMLOrFlightImpl W (sampleRequest false) (js "/blog") 0%nat sampleRenderOpts s in
  let copy := fresh (dom (heap s)) in
  heap (snd out) !! 0%nat = Some o /\
  copy <> 0%nat /\
  heap (snd out) !! copy = Some (foldr delete o (INTERNAL_QUERY_NAMES W)).
Proof.
  intros W o s.
  apply (caller_query_unchanged W (sampleRequest false) (js "/blog") 0%nat sampleRenderOpts s o).
  vm_compute. reflexivity.
Defined.

Example stripped_copy :
  let W := sampleWorld ([], Normal None) None None (Normal []) ([], None) in
  let o : QueryObject :=
    {[ js "page" := HString (js "2"); js "__nextLocale" := HString (js "fr") ]} in
  foldr delete o (INTERNAL_QUERY_NAMES W) = {[ js "page" := HString (js "2") ]}.
Proof. vm_compute. reflexivity. Qed.

(** ** Static generation fails on captured errors *)

Section StaticBuild.
Variable W : World.

(** The HTML of a document is materialised in one place only. *)
Lemma generateFlight_no_html ctx options :
  preserves (fun s => htmlUnchunks (trace s)) (generateFlight W ctx options).
Proof. unfold generateFlight. frame W. Qed.

Lemma stringifyFlightPayload_no_html ctx eager :
  preserves (fun s => htmlUnchunks (trace s)) (stringifyFlightPayload W ctx eager).
Proof.
  intros s. unfold stringifyFlightPayload, generateFlight.
  destruct eager; [|reflexivity].
  run_M. cbn [from_option negb].
  destruct (walkTreeWithFlightRouterState W _) as [r [paths|e]]; cbn [fst snd body].
  - destruct (toUnchunkedString W _) as [r' [e'|]]; simp_state; simp_events; reflexivity.
  - simp_state. simp_events. reflexivity.
Qed.

Lemma bodyResult_no_html cl asNotFound tree0 formState :
  preserves (fun s => htmlUnchunks (trace s)) (bodyResult W cl asNotFound tree0 formState).
Proof.
  unfold bodyResult, recover, setErrorStatus, renderErrorShell, cloneTransformStream.
  repeat first [ frame_step W | progress unfold rethrowFinal ].
Qed.

End StaticBuild.

Section StaticCheck.
Variable W : World.





End StaticCheck.


(** ** The captured errors only grow *)

Section Appends.
Variable W : World.















End Appends.

(** ** The eager Flight payload *)

Section EagerFlight.
Variable W : World.



Lemma finishRender_pageData (cl : Closure) (payload : option ResultBody)
    (formState : option nat) (s : State) (result : RenderResult) :
  fst (finishRender W cl payload formState s) = Normal result ->
  md_pageData (metadata result) = Some payload.
Proof.
  unfold finishRender. run_M. cbn [body extendMetadata].
  destruct (bodyResult W cl _ _ formState s) as [[h|e] s1]; [|discriminate].
  simp_state. destruct (isStaticGeneration (addImplicitTags W (store s1))).
  - destruct (toUnchunkedString W (HtmlBody h)) as [r [e|]]; simp_state; [discriminate|].
    destruct (capturedErrors (reported W r _)) as [|first rest]; [|discriminate].
    repeat match goal with
           | |- context [bool_decide ?P] => destruct (bool_decide P)
           end; intros [= <-]; reflexivity.
  - intros [= <-]. reflexivity.
Qed.



Lemma renderDocument_pageData (req : IncomingMessage) (ctx : AppRenderContext)
    (generateStatic : bool) (payload : option ResultBody) (s : State) (result : RenderResult) :
  actionAnswers (snd (handleAction W req ctx)) = false ->
  fst (renderDocument W req ctx generateStatic payload s) = Normal result ->
  md_pageData (metadata result) = Some payload.
Proof.
  unfold renderDocument, newTransformStream.
  destruct (handleAction W req ctx) as [reports [[[|[r|] [formState|]]|]|e]]; run_M;
    cbn [actionAnswers]; try discriminate; intros _; apply finishRender_pageData.
Qed.


End EagerFlight.



Example swallowed_failure_page_data :
  let W :=
    sampleWorld ([], Normal None) None None (Throw (plainError (js "walk failed"))) ([], None) in
  let out :=
    renderToHTMLOrFlightImpl W (sampleRequest false) (js "/blog") 0%nat sampleRenderOpts
      (initialState sampleResponse (sampleStore true) ∅) in
  exists result,
    fst out = Normal result /\ md_pageData (metadata result) = Some None /\
    capturedErrors (snd out) = [].
Proof. eexists. vm_compute. repeat split. Qed.

(** * Further properties *)

(** ** The resolver on every input *)

Lemma hexDigit_above_slash (d : Z) : 0 <= d -> 47 < hexDigit d.
Proof. intros Hd. unfold hexDigit. destruct (d <? 10); lia. Qed.

Lemma pctOctets_no_slash (bs : list Z) :
  Forall (fun b => 0 <= b) bs -> ~ In 47 (pctOctets bs).
Proof.
  unfold pctOctets. induction 1 as [|b bs Hb _ IH]; [intros []|].
  cbn [map concat pctOctet app]. intros [H|[H|[H|H]]].
  - discriminate H.
  - pose proof (hexDigit_above_slash (b / 16) ltac:(apply Z.div_pos; lia)). lia.
  - pose proof (hexDigit_above_slash (b mod 16) ltac:(apply Z.mod_pos_bound; lia)). lia.
  - exact (IH H).
Qed.

Lemma utf8Encode_nonneg (cp : Z) : 0 <= cp -> Forall (fun b => 0 <= b) (utf8Encode cp).
Proof.
  intros Hcp. unfold utf8Encode.
  pose proof (Z.div_pos cp 64 Hcp ltac:(lia)).
  pose proof (Z.div_pos cp 4096 Hcp ltac:(lia)).
  pose proof (Z.div_pos cp 262144 Hcp ltac:(lia)).
  pose proof (Z.mod_pos_bound cp 64 ltac:(lia)).
  pose proof (Z.mod_pos_bound (cp / 64) 64 ltac:(lia)).
  pose proof (Z.mod_pos_bound (cp / 4096) 64 ltac:(lia)).
  repeat match goal with |- context [if ?b then _ else _] => destruct b end;
    repeat constructor; lia.
Qed.

(** An encoded component holds no [/]. *)
Lemma encodeURIComponent_no_slash (n : nat) :
  forall v e : jsstring, (length v <= n)%nat -> isString v = true ->
    encodeURIComponent v = Some e -> ~ In 47 e.
Proof.
  induction n as [|n IH]; intros v e Hn Hs He.
  { destruct v; [|cbn in Hn; lia]. cbn in He. injection He as <-. intros []. }
  destruct v as [|c rest]; [cbn in He; injection He as <-; intros []|].
  cbn [length] in Hn. cbn [isString forallb] in Hs.
  apply andb_true_iff in Hs as [Hc Hs]. fold (isString rest) in Hs.
  assert (Hc0 : 0 <= c)
    by (unfold isCodeUnit in Hc; apply andb_true_iff in Hc as [Hc _];
        apply Z.leb_le in Hc; exact Hc).
  cbn [encodeURIComponent] in He.
  destruct (uriUnescaped c) eqn:Hu.
  { destruct (encodeURIComponent rest) as [e'|] eqn:He'; [|discriminate He].
    cbn in He. injection He as <-.
    intros [Heq|Hin]; [subst c; vm_compute in Hu; discriminate Hu|].
    exact (IH rest e' ltac:(lia) Hs He' Hin). }
  destruct (isLeadingSurrogate c) eqn:Hl.
  { destruct rest as [|c2 rest']; [discriminate He|].
    destruct (isTrailingSurrogate c2) eqn:Ht; [|discriminate He].
    destruct (encodeURIComponent rest') as [e'|] eqn:He'; [|discriminate He].
    cbn in He. injection He as <-.
    cbn [isString forallb] in Hs. apply andb_true_iff in Hs as [_ Hs].
    destruct (surrogatePair_scalar c c2 Hl Ht) as [[Hsc _] _].
    cbn [length] in Hn. rewrite in_app_iff. intros [Hin|Hin].
    - assert (H0 : 0 <= surrogatePairToCodePoint c c2) by lia.
      exact (pctOctets_no_slash _ (utf8Encode_nonneg _ H0) Hin).
    - exact (IH rest' e' ltac:(lia) Hs He' Hin). }
  destruct (isTrailingSurrogate c) eqn:Ht; [discriminate He|].
  destruct (encodeURIComponent rest) as [e'|] eqn:He'; [|discriminate He].
  cbn in He. injection He as <-. rewrite in_app_iff. intros [Hin|Hin].
  - exact (pctOctets_no_slash _ (utf8Encode_nonneg _ Hc0) Hin).
  - exact (IH rest e' ltac:(lia) Hs He' Hin).
Qed.

(** [encodeURIComponent] throws on the strings that are not well formed,
    and on no other. *)
Lemma encodeURIComponent_throws (n : nat) :
  forall v : jsstring, (length v <= n)%nat ->
    encodeURIComponent v = None -> isWellFormed v = false.
Proof.
  intros v Hn He. destruct (isWellFormed v) eqn:Hw; [|reflexivity].
  destruct (encodeURIComponent_wellFormed n v Hn Hw) as [e He']. congruence.
Qed.

Lemma encodeURIComponent_returns (n : nat) :
  forall v e : jsstring, (length v <= n)%nat ->
    encodeURIComponent v = Some e -> isWellFormed v = true.
Proof.
  induction n as [|n IH]; intros v e Hn He.
  { destruct v; [reflexivity | cbn in Hn; lia]. }
  destruct v as [|c rest]; [reflexivity|].
  cbn [length] in Hn. cbn [encodeURIComponent] in He. cbn [isWellFormed].
  destruct (uriUnescaped c) eqn:Hu.
  { destruct (uriUnescaped_not_surrogate c Hu) as [-> ->].
    destruct (encodeURIComponent rest) as [e'|] eqn:He'; [|discriminate He].
    cbn [negb andb]. exact (IH rest e' ltac:(lia) He'). }
  destruct (isLeadingSurrogate c).
  - destruct rest as [|c2 rest']; [discriminate He|].
    destruct (isTrailingSurrogate c2); [|discriminate He].
    destruct (encodeURIComponent rest') as [e'|] eqn:He'; [|discriminate He].
    cbn [length] in Hn. cbn [andb]. exact (IH rest' e' ltac:(lia) He').
  - destruct (isTrailingSurrogate c); [discriminate He|].
    destruct (encodeURIComponent rest) as [e'|] eqn:He'; [|discriminate He].
    cbn [negb andb]. exact (IH rest e' ltac:(lia) He').
Qed.

Lemma encodeAll_throws (l : list jsstring) :
  encodeAll l = None <-> Exists (fun v => isWellFormed v = false) l.
Proof.
  induction l as [|v l IH]; cbn [encodeAll].
  - split; [discriminate | intros H; inversion H].
  - destruct (encodeURIComponent v) as [e|] eqn:He.
    + pose proof (encodeURIComponent_returns (length v) v e ltac:(lia) He) as Hw.
      destruct (encodeAll l) as [es|]; cbn.
      * split; [discriminate|]. intros H. inversion H as [? ? Hv|? ? Hl]; subst.
        -- congruence.
        -- apply IH in Hl. discriminate Hl.
      * split; [intros _; apply Exists_cons_tl; apply IH; reflexivity | reflexivity].
    + split; [|reflexivity]. intros _. apply Exists_cons_hd.
      exact (encodeURIComponent_throws (length v) v ltac:(lia) He).
Qed.

Lemma encodeAll_round_trip (vs es : list jsstring) :
  Forall (fun v => isString v = true) vs ->
  encodeAll vs = Some es ->
  Forall2 (fun v e => encodeURIComponent v = Some e /\ decodeURIComponent e = Some v /\
                      ~ In 47 e) vs es.
Proof.
  intros Hs. revert es. induction Hs as [|v vs Hv _ IH]; intros es He; cbn [encodeAll] in He.
  - injection He as <-. constructor.
  - destruct (encodeURIComponent v) as [e|] eqn:Hev; [|discriminate He].
    destruct (encodeAll vs) as [es'|]; [|discriminate He].
    cbn in He. injection He as <-. constructor; [|apply IH; reflexivity].
    split; [exact Hev|]. split.
    + exact (decode_encodeURIComponent v e Hv Hev).
    + exact (encodeURIComponent_no_slash (length v) v e ltac:(lia) Hv Hev).
Qed.

Section ResolverEverywhere.
Variable hs : SegmentHelpers.

(** Whatever the scan returns is a dynamic descriptor of the router
    state that the segment may override. *)
Lemma findInRouterState_sound (st : FlightRouterState) (segment : jsstring)
    (dp : DynamicParam) :
  findInRouterState hs st segment = Some dp ->
  exists node p v t,
    In node (routerStateNodes st) /\
    canSegmentBeOverridden hs segment (stateSegment node) = true /\
    stateSegment node = SegDyn p v t /\
    dp = mkDynamicParam p (Some (PString v)) (SegDyn p v t) t.
Proof.
  revert dp.
  induction st as [seg routes url refresh root IH] using FlightRouterState_nested_ind.
  intros dp. cbn [findInRouterState routerStateNodes].
  destruct (canSegmentBeOverridden hs segment seg) eqn:Hc.
  - destruct seg as [s|p v t]; cbn [isArraySegment negb orb]; [discriminate|].
    intros [= <-]. exists (RouterState (SegDyn p v t) routes url refresh root), p, v, t.
    split; [left; reflexivity|]. split; [exact Hc|]. split; reflexivity.
  - clear Hc. intros Hrest.
    cut (exists node p v t,
            In node ((fix values (routes : list (jsstring * FlightRouterState)) :=
                        match routes with
                        | [] => []
                        | (_, child) :: routes' => routerStateNodes child ++ values routes'
                        end) routes) /\
            canSegmentBeOverridden hs segment (stateSegment node) = true /\
            stateSegment node = SegDyn p v t /\
            dp = mkDynamicParam p (Some (PString v)) (SegDyn p v t) t).
    { intros (node & p & v & t & Hin & H). exists node, p, v, t.
      split; [right; exact Hin | exact H]. }
    revert Hrest.
    induction IH as [|[k child] routes Hchild _ IHroutes]; [discriminate|].
    cbn [snd] in Hchild.
    destruct (findInRouterState hs child segment) as [found|] eqn:Hfound.
    + intros [= <-]. destruct (Hchild found eq_refl) as (node & p & v & t & Hin & H).
      exists node, p, v, t. split; [|exact H]. apply in_or_app. left. exact Hin.
    + intros Hrest. destruct (IHroutes Hrest) as (node & p & v & t & Hin & H).
      exists node, p, v, t. split; [|exact H]. apply in_or_app. right. exact Hin.
Qed.

Lemma fallback_sound_shape (provided : option FlightRouterState) (segment : jsstring)
    (dp : DynamicParam) :
  findDynamicParamFromRouterState hs provided segment = Some dp ->
  exists p v t, dp = mkDynamicParam p (Some (PString v)) (SegDyn p v t) t.
Proof.
  destruct provided as [st|]; [|discriminate]. cbn [findDynamicParamFromRouterState].
  intros Hfound. destruct (findInRouterState_sound st segment dp Hfound)
    as (node & p & v & t & _ & _ & _ & ->).
  exists p, v, t. reflexivity.
Qed.

(** X5: whatever the fallback [findDynamicParamFromRouterState]
    returns, it is taken from a node of the provided router state: a
    dynamic descriptor [[param, value, type]] that
    [canSegmentBeOverridden] accepts for the segment, whose three
    components are the param, value and type returned and which is
    returned as the tree segment.  Without a router state the fallback
    returns null. *)
Theorem fallback_returns_a_node_of_the_router_state
    (provided : option FlightRouterState) (segment : jsstring) (dp : DynamicParam) :
  findDynamicParamFromRouterState hs provided segment = Some dp ->
  exists st node p v t,
    provided = Some st /\
    In node (routerStateNodes st) /\
    canSegmentBeOverridden hs segment (stateSegment node) = true /\
    stateSegment node = SegDyn p v t /\
    dp = mkDynamicParam p (Some (PString v)) (SegDyn p v t) t.
Proof.
  destruct provided as [st|]; [|discriminate]. cbn [findDynamicParamFromRouterState].
  intros Hfound. destruct (findInRouterState_sound st segment dp Hfound)
    as (node & p & v & t & H).
  exists st, node, p, v, t. split; [reflexivity | exact H].
Qed.

(** X1: every DynamicParam the resolver returns, on whichever path (the
    parameter mapping, the optional catch-all default, the router-state
    fallback), belongs to a dynamic segment and is consistent with its
    own tree segment: the descriptor is [[param, shown, type]] with the
    param and type returned, [shown] being the value itself, its
    elements joined by [/], or the empty string for null. *)
Theorem resolved_descriptor_is_consistent (params0 : gmap jsstring ParamValue)
    (provided : option FlightRouterState) (segment : jsstring) (dp : DynamicParam) :
  makeGetDynamicParamFromSegment hs params0 provided segment = Normal (Some dp) ->
  is_Some (getSegmentParam hs segment) /\
  dp_treeSegment dp = SegDyn (dp_param dp) (shownValue (dp_value dp)) (dp_type dp).
Proof.
  unfold makeGetDynamicParamFromSegment.
  destruct (getSegmentParam hs segment) as [sp|]; [|discriminate].
  intros Hres. split; [eexists; reflexivity|]. revert Hres.
  set (value := match params0 !! sp_param sp with
                | Some (PString s) =>
                  if bool_decide (s = NEXT_EMPTY_PARAM) then None else params0 !! sp_param sp
                | _ => params0 !! sp_param sp
                end).
  destruct value as [[s|l]|].
  - destruct (encodeURIComponent s) as [e|]; [|discriminate]. cbn [falsy].
    destruct (bool_decide (e = [])).
    + destruct (bool_decide (sp_type sp = js "optional-catchall")).
      * intros [= <-]. reflexivity.
      * intros [= Hfound].
        destruct (fallback_sound_shape provided segment dp Hfound) as (p & v & t & ->).
        reflexivity.
    + intros [= <-]. reflexivity.
  - destruct (encodeAll l) as [es|]; [|discriminate]. cbn [falsy].
    intros [= <-]. reflexivity.
  - cbn [falsy].
    destruct (bool_decide (sp_type sp = js "optional-catchall")).
    + intros [= <-]. reflexivity.
    + intros [= Hfound].
      destruct (fallback_sound_shape provided segment dp Hfound) as (p & v & t & ->).
      reflexivity.
Qed.


(** X3: a catch-all parameter whose value is an array of well-formed
    strings resolves, whatever the router state, to the array of the
    percent-encoded elements, shown in the tree segment joined by [/];
    each encoded element decodes back to the element it came from and
    holds no [/] of its own, so the joined descriptor keeps the elements
    apart. *)
Theorem catchall_round_trip (params0 : gmap jsstring ParamValue)
    (provided : option FlightRouterState) (segment : jsstring) (sp : SegmentParam)
    (vs : list jsstring) :
  getSegmentParam hs segment = Some sp ->
  params0 !! sp_param sp = Some (PArray vs) ->
  Forall (fun v => isString v = true) vs ->
  Forall (fun v => isWellFormed v = true) vs ->
  exists es,
    makeGetDynamicParamFromSegment hs params0 provided segment =
    Normal (Some (mkDynamicParam (sp_param sp) (Some (PArray es))
                    (SegDyn (sp_param sp) (join (js "/") es)
                       (getShortDynamicParamType hs (sp_type sp)))
                    (getShortDynamicParamType hs (sp_type sp)))) /\
    Forall2 (fun v e => encodeURIComponent v = Some e /\ decodeURIComponent e = Some v /\
                        ~ In 47 e) vs es.
Proof.
  intros Hsp Hvs Hstr Hwf.
  destruct (encodeAll vs) as [es|] eqn:Hes.
  - exists es. split; [|exact (encodeAll_round_trip vs es Hstr Hes)].
    unfold makeGetDynamicParamFromSegment. rewrite Hsp, Hvs, Hes. reflexivity.
  - exfalso. apply encodeAll_throws in Hes. apply List.Exists_exists in Hes.
    destruct Hes as (v & Hin & Hv). rewrite List.Forall_forall in Hwf.
    rewrite (Hwf v Hin) in Hv. discriminate Hv.
Qed.

(** X4: the resolver throws on one kind of input only, a parameter value
    that holds an unpaired surrogate (a string that is not the marker, or
    an element of an array), and what it throws then is the [URIError] of
    [encodeURIComponent]. *)
Theorem resolver_throws_on_ill_formed_values_only (params0 : gmap jsstring ParamValue)
    (provided : option FlightRouterState) (segment : jsstring) (e : Error) :
  makeGetDynamicParamFromSegment hs params0 provided segment = Throw e <->
  e = URIError /\
  exists sp,
    getSegmentParam hs segment = Some sp /\
    match params0 !! sp_param sp with
    | Some (PString v) => v <> NEXT_EMPTY_PARAM /\ isWellFormed v = false
    | Some (PArray l) => Exists (fun v => isWellFormed v = false) l
    | None => False
    end.
Proof.
  unfold makeGetDynamicParamFromSegment.
  destruct (getSegmentParam hs segment) as [sp|].
  2:{ split; [discriminate | intros (_ & sp & Hsp & _); discriminate Hsp]. }
  destruct (params0 !! sp_param sp) as [[s|l]|] eqn:Hp.
  - destruct (bool_decide_reflect (s = NEXT_EMPTY_PARAM)) as [Hm|Hm].
    + cbn [falsy]. split.
      * destruct (bool_decide (sp_type sp = js "optional-catchall")); discriminate.
      * intros (_ & sp' & [= <-] & Hill). rewrite Hp in Hill. destruct Hill as [Hne _].
        contradiction.
    + destruct (encodeURIComponent s) as [enc|] eqn:Henc.
      * pose proof (encodeURIComponent_returns (length s) s enc ltac:(lia) Henc) as Hw.
        split.
        -- destruct (falsy (Some (PString enc)));
             [destruct (bool_decide (sp_type sp = js "optional-catchall"))|]; discriminate.
        -- intros (_ & sp' & [= <-] & Hill). rewrite Hp in Hill. destruct Hill as [_ Hill].
           congruence.
      * pose proof (encodeURIComponent_throws (length s) s ltac:(lia) Henc) as Hw.
        split.
        -- intros [= <-]. split; [reflexivity|]. exists sp. rewrite Hp. auto.
        -- intros (-> & _). reflexivity.
  - destruct (encodeAll l) as [es|] eqn:Hes.
    + split; [cbn [falsy]; discriminate|].
      intros (_ & sp' & [= <-] & Hill). rewrite Hp in Hill.
      apply encodeAll_throws in Hill. congruence.
    + split.
      * intros [= <-]. split; [reflexivity|]. exists sp. rewrite Hp.
        split; [reflexivity|]. apply encodeAll_throws. exact Hes.
      * intros (-> & _). reflexivity.
  - cbn [falsy]. split.
    + destruct (bool_decide (sp_type sp = js "optional-catchall")); discriminate.
    + intros (_ & sp' & [= <-] & Hill). rewrite Hp in Hill. destruct Hill.
Qed.

End ResolverEverywhere.

Lemma fallback_returns_a_node_of_the_router_state_witness :
  exists st node p v t,
    Some sampleRouterState = Some st /\
    In node (routerStateNodes st) /\
    canSegmentBeOverridden sampleHelpers (js "[slug]") (stateSegment node) = true /\
    stateSegment node = SegDyn p v t /\
    mkDynamicParam (js "slug") (Some (PString (js "hello")))
      (SegDyn (js "slug") (js "hello") (js "d")) (js "d")
    = mkDynamicParam p (Some (PString v)) (SegDyn p v t) t.
Proof.
  apply (fallback_returns_a_node_of_the_router_state sampleHelpers (Some sampleRouterState)
           (js "[slug]")).
  vm_compute. reflexivity.
Defined.

Lemma resolved_descriptor_is_consistent_witness :
  let dp :=
    mkDynamicParam (js "path") (Some (PArray [js "a%2Fb"; js "c"]))
      (SegDyn (js "path") (js "a%2Fb/c") (js "c")) (js "c") in
  is_Some (getSegmentParam sampleHelpers (js "[...path]")) /\
  dp_treeSegment dp = SegDyn (dp_param dp) (shownValue (dp_value dp)) (dp_type dp).
Proof.
  apply (resolved_descriptor_is_consistent sampleHelpers
           {[ js "path" := PArray [js "a/b"; js "c"] ]} None (js "[...path]")).
  vm_compute. reflexivity.
Defined.


Lemma catchall_round_trip_witness :
  exists es,
    makeGetDynamicParamFromSegment sampleHelpers
      {[ js "path" := PArray [js "a/b"; [0xE9]; []] ]} None (js "[...path]") =
    Normal (Some (mkDynamicParam (js "path") (Some (PArray es))
                    (SegDyn (js "path") (join (js "/") es) (js "c")) (js "c"))) /\
    Forall2 (fun v e => encodeURIComponent v = Some e /\ decodeURIComponent e = Some v /\
                        ~ In 47 e) [js "a/b"; [0xE9]; []] es.
Proof.
  apply (catchall_round_trip sampleHelpers
           {[ js "path" := PArray [js "a/b"; [0xE9]; []] ]} None (js "[...path]")
           (mkSegmentParam (js "path") (js "catchall"))).
  - vm_compute. reflexivity.
  - vm_compute. reflexivity.
  - repeat constructor.
  - repeat constructor.
Defined.

(** ** The other classes of document-render failure *)

Section OtherFailures.
Variable W : World.

Lemma setErrorStatus_generic (cl : Closure) (err : Error) (s : State) :
  isNotFoundError W err = false ->
  isRedirectError W err = false ->
  let was404 := statusCode (res s) =? 404 in
  exists s',
    setErrorStatus W cl err s = (Normal (was404, false), s') /\
    res s' = (if was404 then res s else setStatusCode 500 (res s)) /\
    store s' = store s /\ streams s' = streams s /\
    (trace s' = trace s \/ trace s' = trace s ++ [EvWarn]).
Proof.
  intros Hnf Hredir was404. subst was404.
  destruct (setErrorStatus_frame W cl err s)
    as (flags & s' & Hrun & Hstore & _ & _ & _ & _ & Hstreams & Htrace).
  exists s'. revert Hrun. unfold setErrorStatus. run_M. rewrite Hnf, Hredir.
  destruct (bool_decide (err_digest err = Some (NEXT_DYNAMIC_NO_SSR_CODE W)));
    simp_state; destruct (statusCode (res s) =? 404);
    simp_state; intros [= <- <-]; simp_state; repeat split; auto.
Qed.

(** X6: when the document render fails with an error that is neither a
    not-found, nor a redirect, nor one of the re-thrown bailout and
    postpone errors, the status code becomes 500, unless it already was
    404, which is kept and makes the error shell a not-found one; the
    headers are left alone, the shell is rendered with noindex on a clone
    of the stream, and no body but that shell is ever returned. *)
Theorem generic_error_recovery (cl : Closure) (asNotFound : bool)
    (tree0 : LoaderTree) (formState : option nat) (s : State)
    (reports : Reports) (err : Error) :
  rendererRender W (documentProps cl asNotFound tree0 formState) = (reports, Throw err) ->
  isStaticGenBailout err = false ->
  err_postpone err = false ->
  isNotFoundError W err = false ->
  isRedirectError W err = false ->
  let out := bodyResult W cl asNotFound tree0 formState s in
  let was404 := statusCode (res s) =? 404 in
  let clone := streams s in
  let page :=
    errorPageProps W cl tree0 formState
      (if was404 then Some ErrorType_not_found else None) true clone in
  let options := errorContinueOptions cl clone formState (isStaticGeneration (store s)) in
  let shell := FizzStreamOf (ErrorPageElement page) in
  statusCode (res (snd out)) = (if was404 then 404 else 500) /\
  res_headers (res (snd out)) = res_headers (res s) /\
  In (EvRenderErrorPage page) (trace (snd out)) /\
  (snd (renderToInitialFizzStream W page) = None ->
   snd (continueFizzStream W shell options) = None ->
   fst out = Normal (ContinuedFizzStream shell options)) /\
  (forall html, fst out = Normal html -> html = ContinuedFizzStream shell options).
Proof.
  intros Hrender Hbail Hpost Hnf Hredir out was404 clone page options shell. subst out.
  rewrite (bodyResult_render_throws W _ _ _ _ _ _ _ Hrender).
  set (s0 := reported W reports _).
  assert (Hs0 : res s0 = res s /\ store s0 = store s /\ streams s0 = streams s)
    by (subst s0; simp_state; auto).
  destruct Hs0 as (Hres0 & Hstore0 & Hstreams0).
  rewrite (recover_run W _ _ _ _ _ Hbail Hpost).
  destruct (setErrorStatus_generic cl err s0 Hnf Hredir)
    as (s1 & -> & Hres1 & Hstore1 & Hstreams1 & _).
  rewrite Hres0 in Hres1 |- *. fold was404 in Hres1 |- *.
  cbn [fst snd].
  pose proof (renderErrorShell_outcome W cl tree0 formState was404 false s1) as Hshell.
  cbv zeta in Hshell. rewrite Hstore1, Hstreams1, Hstore0, Hstreams0 in Hshell.
  assert (Hstatus : statusCode (res s1) = (if was404 then 404 else 500)).
  { rewrite Hres1. subst was404.
    destruct (statusCode (res s) =? 404) eqn:H404; [|reflexivity].
    apply Z.eqb_eq in H404. exact H404. }
  assert (Hnoindex : (statusCode (res s1) >=? 400) = true)
    by (rewrite Hstatus; destruct was404; reflexivity).
  rewrite Hnoindex in Hshell.
  destruct Hshell as (Hres & _ & _ & _ & _ & _ & Hin & Hok & Honly).
  rewrite Hres. split; [exact Hstatus|]. split.
  { rewrite Hres1. destruct was404; reflexivity. }
  repeat split; assumption.
Qed.

(** X7: a postpone error that escapes the document render forces the
    revalidation time of the store to zero and is re-thrown as it is: the
    response is not touched, no stream is cloned and no error shell is
    rendered. *)
Theorem postpone_is_rethrown (cl : Closure) (asNotFound : bool)
    (tree0 : LoaderTree) (formState : option nat) (s : State)
    (reports : Reports) (err : Error) :
  rendererRender W (documentProps cl asNotFound tree0 formState) = (reports, Throw err) ->
  isStaticGenBailout err = false ->
  err_postpone err = true ->
  let out := bodyResult W cl asNotFound tree0 formState s in
  fst out = Throw err /\
  revalidate (store (snd out)) = Some (RevalidateSeconds 0) /\
  store (snd out) = setRevalidate (Some (RevalidateSeconds 0)) (store s) /\
  res (snd out) = res s /\
  streams (snd out) = streams s /\
  trace (snd out) = trace s ++ [EvRender (documentProps cl asNotFound tree0 formState)].
Proof.
  intros Hrender Hbail Hpost out. subst out.
  rewrite (bodyResult_render_throws W _ _ _ _ _ _ _ Hrender).
  unfold recover. rewrite Hbail, Hpost. run_M. simp_state. repeat split.
Qed.

End OtherFailures.

Lemma generic_error_recovery_witness :
  let W := sampleWorld ([], Throw genericError) None None (Normal []) ([], None) in
  let out := bodyResult W sampleClosure false sampleTree None (sampleState false) in
  let page := errorPageProps W sampleClosure sampleTree None None true 1%nat in
  let options := errorContinueOptions sampleClosure 1%nat None false in
  let shell := FizzStreamOf (ErrorPageElement page) in
  statusCode (res (snd out)) = 500 /\
  res_headers (res (snd out)) = res_headers (res (sampleState false)) /\
  In (EvRenderErrorPage page) (trace (snd out)) /\
  (snd (renderToInitialFizzStream W page) = None ->
   snd (continueFizzStream W shell options) = None ->
   fst out = Normal (ContinuedFizzStream shell options)) /\
  (forall html, fst out = Normal html -> html = ContinuedFizzStream shell options).
Proof.
  intros W.
  apply (generic_error_recovery W sampleClosure false sampleTree None (sampleState false)
           [] genericError); reflexivity.
Defined.

Lemma postpone_is_rethrown_witness :
  let W := sampleWorld ([], Throw postponeError) None None (Normal []) ([], None) in
  let out := bodyResult W sampleClosure false sampleTree None (sampleState true) in
  fst out = Throw postponeError /\
  revalidate (store (snd out)) = Some (RevalidateSeconds 0) /\
  store (snd out) = setRevalidate (Some (RevalidateSeconds 0)) (store (sampleState true)) /\
  res (snd out) = res (sampleState true) /\
  streams (snd out) = streams (sampleState true) /\
  trace (snd out) =
    trace (sampleState true) ++ [EvRender (documentProps sampleClosure false sampleTree None)].
Proof.
  intros W.
  apply (postpone_is_rethrown W sampleClosure false sampleTree None (sampleState true)
           [] postponeError); reflexivity.
Defined.

(** ** Events a run never leaves *)

Section TraceFilter.
Variable W : World.
Variable f : Event -> bool.

Lemma filter_emit (ev : Event) :
  f ev = false -> preserves (fun s => List.filter f (trace s)) (emit ev).
Proof.
  intros Hev s. cbn. rewrite List.filter_app. cbn. rewrite Hev. apply app_nil_r.
Qed.

Lemma filter_modify (g : State -> State) :
  (forall s, trace (g s) = trace s) ->
  preserves (fun s => List.filter f (trace s)) (modify g).
Proof. intros Hg s. cbn. rewrite Hg. reflexivity. Qed.

Lemma filter_await {A} (call : Reports * Completion A) :
  preserves (fun s => List.filter f (trace s)) (await W call).
Proof. apply (preserves_await W). intros reports s. rewrite reported_trace. reflexivity. Qed.

Lemma filter_awaitUnit (call : Reports * option Error) :
  preserves (fun s => List.filter f (trace s)) (awaitUnit W call).
Proof. apply (preserves_awaitUnit W). intros reports s. rewrite reported_trace. reflexivity. Qed.

Lemma filter_none (ev : Event) (t : list Event) :
  List.filter f t = [] -> f ev = true -> ~ In ev t.
Proof.
  intros Hnone Hev Hin.
  assert (Hin' : In ev (List.filter f t)) by (apply List.filter_In; auto).
  rewrite Hnone in Hin'. destruct Hin'.
Qed.

End TraceFilter.

Ltac trace_step W :=
  match goal with
  | |- preserves _ (bindM _ _) => apply preserves_bind; [|intros]
  | |- preserves _ (ret _) => apply preserves_ret
  | |- preserves _ (throw _) => apply preserves_throw
  | |- preserves _ (gets _) => apply preserves_gets
  | |- preserves _ (when _ _) => apply preserves_when
  | |- preserves _ (tryCatch _ _) => apply preserves_tryCatch; [|intros]
  | |- preserves _ (emit _) => apply filter_emit; reflexivity
  | |- preserves _ (modify _) => apply filter_modify; intros; reflexivity
  | |- preserves _ (await _ _) => apply (filter_await W)
  | |- preserves _ (awaitUnit _ _) => apply (filter_awaitUnit W)
  | |- preserves _ (unchunk _ _) => unfold unchunk
  | |- preserves _ (if ?b then _ else _) => destruct b
  | |- preserves _ (match ?x with _ => _ end) => destruct x
  end.

Section Production.
Variable W : World.
Hypothesis production : NODE_ENV W <> js "development".

Lemma rethrowFinal_production {A} (finalErr : Error) :
  preserves (fun s => List.filter isBailEvent (trace s)) (@rethrowFinal W A finalErr).
Proof.
  unfold rethrowFinal. rewrite bool_decide_eq_false_2 by exact production.
  cbn [andb when]. repeat trace_step W.
Qed.

Lemma bodyResult_production cl asNotFound tree0 formState :
  preserves (fun s => List.filter isBailEvent (trace s))
            (bodyResult W cl asNotFound tree0 formState).
Proof.
  unfold bodyResult, recover, setErrorStatus, renderErrorShell, cloneTransformStream.
  repeat first [ apply rethrowFinal_production | trace_step W ].
Qed.

Lemma renderToHTMLOrFlightImpl_production req pagePath0 query renderOpts :
  preserves (fun s => List.filter isBailEvent (trace s))
            (renderToHTMLOrFlightImpl W req pagePath0 query renderOpts).
Proof.
  unfold renderToHTMLOrFlightImpl, spreadQuery, stripInternalQueries, stringifyFlightPayload,
    renderDocument, finishRender, newTransformStream, generateFlight.
  repeat first [ apply bodyResult_production | trace_step W | progress cbv zeta ].
Qed.

End Production.

(** X8: outside development ([NODE_ENV] is not [development]) the
    dev-only [bailOnNotFound] is never called, whatever the request and
    however the renders fail. *)
Theorem production_never_bails (W : World) (req : IncomingMessage) (pagePath0 : jsstring)
    (query : loc) (renderOpts : RenderOpts)
    (res0 : ServerResponse) (store0 : StaticGenerationStore) (heap0 : gmap loc QueryObject) :
  NODE_ENV W <> js "development" ->
  let out :=
    renderToHTMLOrFlightImpl W req pagePath0 query renderOpts (initialState res0 store0 heap0) in
  ~ In EvBailOnNotFound (trace (snd out)).
Proof.
  intros Hproduction out.
  apply (filter_none isBailEvent); [|reflexivity].
  exact (renderToHTMLOrFlightImpl_production W Hproduction req pagePath0 query renderOpts
           (initialState res0 store0 heap0)).
Qed.

Lemma production_never_bails_witness :
  let shellError := notFoundError in
  let W := sampleWorld ([], Throw notFoundError) (Some shellError) None (Normal []) ([], None) in
  let out :=
    renderToHTMLOrFlightImpl W (sampleRequest false) (js "/blog") 0%nat sampleRenderOpts
      (initialState sampleResponse (sampleStore false) ∅) in
  ~ In EvBailOnNotFound (trace (snd out)).
Proof.
  intros shellError W.
  apply (production_never_bails W (sampleRequest false) (js "/blog") 0%nat sampleRenderOpts
           sampleResponse (sampleStore false) ∅).
  vm_compute. discriminate.
Defined.

(** ** The error handlers *)

Section Wiring.
Variable W : World.


End Wiring.

(** ** The Flight generator *)

Section Flight.
Variable W : World.


End Flight.

(** ** What a whole request touches *)

Section Footprint.
Variable W : World.






Hypothesis renders : forall props, exists reports v,
  rendererRender W props = (reports, Normal v).




End Footprint.



(** ** Streams, the action bridge and the page data *)

Section Budget.
Variable W : World.




Lemma stringifyFlightPayload_total (ctx : AppRenderContext) (eager : bool) (s : State) :
  exists payload, fst (stringifyFlightPayload W ctx eager s) = Normal payload.
Proof.
  unfold stringifyFlightPayload, generateFlight. destruct eager; [|eexists; reflexivity].
  run_M. cbn [from_option negb].
  destruct (walkTreeWithFlightRouterState W _) as [r [paths|e]]; cbn [fst snd body].
  - destruct (toUnchunkedString W _) as [r' [e'|]]; eexists; reflexivity.
  - eexists. reflexivity.
Qed.



(** X17: when the eager Flight generation succeeds (static generation or
    a postponed resumption), the pageData of the document result is the
    Flight payload of that generation, built from the build id and the
    walked paths without their root segment. *)
Theorem page_data_is_the_flight_payload (req : IncomingMessage) (pagePath0 : jsstring)
    (query : loc) (renderOpts : RenderOpts)
    (res0 : ServerResponse) (store0 : StaticGenerationStore) (heap0 : gmap loc QueryObject)
    (result : RenderResult) :
  let static := isStaticGeneration store0 in
  let ctx := appRenderContext W req pagePath0 (fresh (dom heap0)) renderOpts static in
  let out :=
    renderToHTMLOrFlightImpl W req pagePath0 query renderOpts (initialState res0 store0 heap0) in
  hasHeader req (toLowerCase (RSC W)) && negb static = false ->
  static || bool_decide (is_Some (postponed renderOpts)) = true ->
  eagerFlightFails W ctx = false ->
  actionAnswers (snd (handleAction W req ctx)) = false ->
  fst out = Normal result ->
  exists paths,
    snd (walkTreeWithFlightRouterState W (flightWalkArgs ctx None)) = Normal paths /\
    md_pageData (metadata result) =
    Some (Some (FlightBody (BuildIdFlightDataPair (buildId renderOpts)
                              (Some (map (drop 1) paths))))).
Proof.
  intros static ctx out Hnavigation Heager Hsucceeds Haction. subst out.
  rewrite renderToHTMLOrFlightImpl_run. cbn [initialState store heap].
  fold static. fold ctx. rewrite Hnavigation, Heager.
  set (s1 := withHeap _ _). clearbody s1.
  unfold eagerFlightFails in Hsucceeds.
  destruct (walkTreeWithFlightRouterState W (flightWalkArgs ctx None))
    as [r [paths|e]] eqn:Hwalk; cbn [snd] in Hsucceeds; [|discriminate Hsucceeds].
  apply bool_decide_eq_false in Hsucceeds.
  set (payload := FlightBody (flightPayload ctx None (Some (map (drop 1) paths)))) in *.
  assert (Hflight : fst (stringifyFlightPayload W ctx true s1) = Normal (Some payload)).
  { unfold stringifyFlightPayload, generateFlight. run_M. cbn [from_option negb].
    rewrite Hwalk. cbn [fst snd body]. fold payload.
    destruct (toUnchunkedString W payload) as [r' [e'|]]; [|reflexivity].
    exfalso. apply Hsucceeds. eexists. reflexivity. }
  unfold bindM at 1.
  destruct (stringifyFlightPayload W ctx true s1) as [c s2]. cbn [fst] in Hflight. subst c.
  intros Hresult. exists paths. split; [reflexivity|].
  exact (renderDocument_pageData W req ctx _ (Some payload) s2 result Haction Hresult).
Qed.

End Budget.


Lemma page_data_is_the_flight_payload_witness :
  let path := [ItemSegment (SegStr []); ItemSegment (SegStr (js "blog")); ItemData 0%nat] in
  let W := sampleWorld ([], Normal None) None None (Normal [path]) ([], None) in
  let req := sampleRequest false in
  let ctx :=
    appRenderContext W req (js "/blog") (fresh (dom (∅ : gmap loc QueryObject)))
      sampleRenderOpts true in
  let out :=
    renderToHTMLOrFlightImpl W req (js "/blog") 0%nat sampleRenderOpts
      (initialState sampleResponse (sampleStore true) ∅) in
  let result :=
    match fst out with
    | Normal r => r
    | Throw _ => {| body := ActionBody 0; metadata := emptyMetadata |}
    end in
  exists paths,
    snd (walkTreeWithFlightRouterState W (flightWalkArgs ctx None)) = Normal paths /\
    md_pageData (metadata result) =
    Some (Some (FlightBody (BuildIdFlightDataPair (buildId sampleRenderOpts)
                              (Some (map (drop 1) paths))))).
Proof.
  intros path W req ctx out result.
  apply (page_data_is_the_flight_payload W req (js "/blog") 0%nat sampleRenderOpts
           sampleResponse (sampleStore true) ∅ result); vm_compute; reflexivity.
Defined.

(** ** What is rendered *)

Section RenderInputs.
Variable W : World.

Lemma recover_renders cl tree0 formState err :
  preserves (fun s => List.filter isRenderEvent (trace s)) (recover W cl tree0 formState err).
Proof.
  unfold recover, setErrorStatus, renderErrorShell, cloneTransformStream.
  repeat first [ trace_step W | progress unfold rethrowFinal ].
Qed.

(** One call of [bodyResult] starts one document render, with the
    element built from its arguments. *)
Lemma bodyResult_renders (cl : Closure) (asNotFound : bool) (tree0 : LoaderTree)
    (formState : option nat) (s : State) :
  List.filter isRenderEvent (trace (snd (bodyResult W cl asNotFound tree0 formState s))) =
  List.filter isRenderEvent (trace s) ++ [EvRender (documentProps cl asNotFound tree0 formState)].
Proof.
  set (props := documentProps cl asNotFound tree0 formState).
  destruct (rendererRender W props) as [reports [[p|]|err]] eqn:Hrender.
  - rewrite (bodyResult_render_postponed W _ _ _ _ _ _ _ Hrender). fold props. simp_state.
    rewrite List.filter_app. reflexivity.
  - rewrite (bodyResult_render_completes W _ _ _ _ _ _ Hrender). fold props.
    destruct (truthy _).
    + destruct (continuePostponedFizzStream W _ _) as [r [e|]]; simp_state;
        rewrite !List.filter_app; cbn [List.filter isRenderEvent]; rewrite app_nil_r;
        reflexivity.
    + destruct (continueFizzStream W _ _) as [r [e|]]; simp_state;
        rewrite !List.filter_app; cbn [List.filter isRenderEvent]; rewrite app_nil_r;
        reflexivity.
  - rewrite (bodyResult_render_throws W _ _ _ _ _ _ _ Hrender). fold props.
    rewrite (recover_renders cl tree0 formState err). simp_state.
    rewrite List.filter_app. reflexivity.
Qed.

Lemma finishRender_renders (cl : Closure) (payload : option ResultBody)
    (formState : option nat) (s : State) :
  List.filter isRenderEvent (trace (snd (finishRender W cl payload formState s))) =
  List.filter isRenderEvent (trace s)
  ++ [EvRender (documentProps cl (isNotFoundPath (cl_ctx cl))
                  (tree (ctx_renderOpts (cl_ctx cl))) formState)].
Proof.
  rewrite <- bodyResult_renders. unfold finishRender.
  apply (bind_preserved_after (fun s => List.filter isRenderEvent (trace s))).
  intros html. repeat trace_step W.
Qed.

Lemma stringifyFlightPayload_renders ctx eager :
  preserves (fun s => List.filter isRenderEvent (trace s)) (stringifyFlightPayload W ctx eager).
Proof. unfold stringifyFlightPayload, generateFlight. repeat trace_step W. Qed.

Lemma generateFlight_renders ctx options :
  preserves (fun s => List.filter isRenderEvent (trace s)) (generateFlight W ctx options).
Proof. unfold generateFlight. repeat trace_step W. Qed.

(** X12: whatever document render a request starts is started after the
    action bridge resolved, and on its verdict: for an action that was
    not found, the not-found tree (the root's components under an empty
    segment, without parallel routes) rendered as not-found, without form
    state; otherwise the page's own tree, rendered as not-found exactly
    for the [/404] page, with the form state of the action if it left
    one.  The render resumes the postponed state when there is a
    non-empty one, and writes its inlined data to the first transform
    stream of the request. *)
Theorem document_render_inputs (req : IncomingMessage) (pagePath0 : jsstring)
    (query : loc) (renderOpts : RenderOpts)
    (res0 : ServerResponse) (store0 : StaticGenerationStore) (heap0 : gmap loc QueryObject)
    (props : DocumentProps) :
  let static := isStaticGeneration store0 in
  let ctx := appRenderContext W req pagePath0 (fresh (dom heap0)) renderOpts static in
  let out :=
    renderToHTMLOrFlightImpl W req pagePath0 query renderOpts (initialState res0 store0 heap0) in
  In (EvRender props) (trace (snd out)) ->
  hasHeader req (toLowerCase (RSC W)) && negb static = false /\
  exists action,
    snd (handleAction W req ctx) = Normal action /\
    doc_asNotFound props =
      match action with
      | Some ActionNotFound => true
      | _ => bool_decide (pagePath0 = js "/404")
      end /\
    doc_tree props =
      match action with
      | Some ActionNotFound => createNotFoundLoaderTree (tree renderOpts)
      | _ => tree renderOpts
      end /\
    doc_formState props =
      match action with
      | Some (ActionDone None formState) => formState
      | _ => None
      end /\
    doc_resume props =
      (if truthy (postponed renderOpts) then postponed renderOpts else None) /\
    inlinedDataTransformStream (doc_options props) = 0%nat.
Proof.
  intros static ctx out Hin.
  assert (Hrenders : In (EvRender props) (List.filter isRenderEvent (trace (snd out))))
    by (apply List.filter_In; split; [exact Hin | reflexivity]).
  clear Hin. revert Hrenders. subst out.
  rewrite renderToHTMLOrFlightImpl_run. cbn [initialState store heap].
  fold static. fold ctx.
  set (s1 := withHeap _ _).
  assert (Hs1 : List.filter isRenderEvent (trace s1) = [] /\ streams s1 = 0%nat)
    by (subst s1; destruct (enableTainting renderOpts); split; reflexivity).
  destruct Hs1 as (Hrenders1 & Hstreams1). clearbody s1.
  destruct (hasHeader req (toLowerCase (RSC W)) && negb static).
  { rewrite (generateFlight_renders ctx None s1), Hrenders1. intros []. }
  intros Hrenders. split; [reflexivity|].
  set (eager := static || bool_decide (is_Some (postponed renderOpts))) in *.
  pose proof (stringifyFlightPayload_renders ctx eager s1) as Hrenders2.
  pose proof (stringifyFlightPayload_streams W ctx eager s1) as Hstreams2.
  unfold bindM in Hrenders.
  destruct (stringifyFlightPayload W ctx eager s1) as [[payload|e] s2];
    cbn [fst snd] in *; rewrite Hrenders1 in Hrenders2; rewrite Hstreams1 in Hstreams2;
    [|rewrite Hrenders2 in Hrenders; destruct Hrenders].
  revert Hrenders. unfold renderDocument, newTransformStream.
  destruct (handleAction W req ctx) as [reports [action|e]]; run_M; rewrite Hstreams2;
    set (s0 := reported W _ _);
    (assert (Hs0 : List.filter isRenderEvent (trace s0) = [])
      by (subst s0; simp_state; rewrite !List.filter_app, Hrenders2; reflexivity));
    clearbody s0.
  2:{ rewrite Hs0. intros []. }
  intros Hrenders. exists action. split; [reflexivity|].
  destruct action as [[|[result|] [formState|]]|].
  - set (cl := Build_Closure _ _ _ _ _) in Hrenders.
    pose proof (bodyResult_renders cl true (createNotFoundLoaderTree (tree renderOpts)) None s0)
      as Hbody.
    change (tree (ctx_renderOpts ctx)) with (tree renderOpts) in Hrenders.
    destruct (bodyResult W cl true _ None s0) as [[h|e] s3]; cbn [snd] in Hbody, Hrenders;
      rewrite Hbody, Hs0 in Hrenders; destruct Hrenders as [Heq|[]];
      injection Heq as <-; repeat split.
  - rewrite Hs0 in Hrenders. destruct Hrenders.
  - rewrite Hs0 in Hrenders. destruct Hrenders.
  - match type of Hrenders with
    | context [finishRender W ?cl ?p ?f s0] =>
      pose proof (finishRender_renders cl p f s0) as Hfinish;
      destruct (finishRender W cl p f s0) as [c s3]
    end.
    cbn [snd] in Hfinish. cbv beta iota in Hrenders. rewrite Hfinish, Hs0 in Hrenders.
    destruct Hrenders as [Heq|[]]. injection Heq as <-. repeat split.
  - match type of Hrenders with
    | context [finishRender W ?cl ?p ?f s0] =>
      pose proof (finishRender_renders cl p f s0) as Hfinish;
      destruct (finishRender W cl p f s0) as [c s3]
    end.
    cbn [snd] in Hfinish. cbv beta iota in Hrenders. rewrite Hfinish, Hs0 in Hrenders.
    destruct Hrenders as [Heq|[]]. injection Heq as <-. repeat split.
  - match type of Hrenders with
    | context [finishRender W ?cl ?p ?f s0] =>
      pose proof (finishRender_renders cl p f s0) as Hfinish;
      destruct (finishRender W cl p f s0) as [c s3]
    end.
    cbn [snd] in Hfinish. cbv beta iota in Hrenders. rewrite Hfinish, Hs0 in Hrenders.
    destruct Hrenders as [Heq|[]]. injection Heq as <-. repeat split.
Qed.

End RenderInputs.

Lemma document_render_inputs_witness :
  let W := sampleWorld ([], Normal None) None (Some ActionNotFound) (Normal []) ([], None) in
  let req := sampleRequest false in
  let ctx :=
    appRenderContext W req (js "/blog") (fresh (dom (∅ : gmap loc QueryObject)))
      sampleRenderOpts false in
  let props :=
    {| doc_tree := createNotFoundLoaderTree sampleTree;
       doc_asNotFound := true;
       doc_options :=
         {| inlinedDataTransformStream := 0%nat; sc_formState := None; sc_nonce := None |};
       doc_formState := None;
       doc_resume := None |} in
  hasHeader req (toLowerCase (RSC W)) && negb false = false /\
  exists action,
    snd (handleAction W req ctx) = Normal action /\
    doc_asNotFound props =
      match action with
      | Some ActionNotFound => true
      | _ => bool_decide (js "/blog" = js "/404")
      end /\
    doc_tree props =
      match action with
      | Some ActionNotFound => createNotFoundLoaderTree (tree sampleRenderOpts)
      | _ => tree sampleRenderOpts
      end /\
    doc_formState props =
      match action with
      | Some (ActionDone None formState) => formState
      | _ => None
      end /\
    doc_resume props =
      (if truthy (postponed sampleRenderOpts) then postponed sampleRenderOpts else None) /\
    inlinedDataTransformStream (doc_options props) = 0%nat.
Proof.
  intros W req ctx props.
  apply (document_render_inputs W req (js "/blog") 0%nat sampleRenderOpts
           sampleResponse (sampleStore false) ∅ props).
  vm_compute. auto 10.
Defined.

(** ** Dynamic requests and static passes *)

Section Modes.
Variable W : World.

(** [addImplicitTags] adds tags to the store; the mode is not its to
    change. *)
Hypothesis addImplicitTags_mode : forall st,
  isStaticGeneration (addImplicitTags W st) = isStaticGeneration st.








End Modes.



Example static_result_force_dynamic :
  let W := sampleWorld ([], Normal None) None None (Normal []) ([], None) in
  let store0 :=
    {| urlPathname := js "/blog"; isStaticGeneration := true; revalidate := Some (RevalidateSeconds 60);
       forceStatic := Some false; tags := None; fetchMetrics := None;
       pendingRevalidates := None; dynamicUsageDescription := Some (js "cookies");
       dynamicUsageStack := None |} in
  let out :=
    renderToHTMLOrFlightImpl W (sampleRequest false) (js "/blog") 0%nat sampleRenderOpts
      (initialState sampleResponse store0 ∅) in
  exists result,
    fst out = Normal result /\
    md_revalidate (metadata result) = Some (RevalidateSeconds 0) /\
    md_staticBailoutInfo (metadata result) = Some (Some (js "cookies"), None).
Proof. eexists. vm_compute. repeat split. Qed.

(** ** The warning, the not-found answer and the router-state header *)

Section Remaining.
Variable W : World.

Lemma setErrorStatus_warns (cl : Closure) (err : Error) (s : State) :
  List.filter isWarnEvent (trace (snd (setErrorStatus W cl err s))) =
  List.filter isWarnEvent (trace s)
  ++ (if bool_decide (err_digest err = Some (NEXT_DYNAMIC_NO_SSR_CODE W)) then [EvWarn] else []).
Proof.
  unfold setErrorStatus. run_M.
  destruct (bool_decide (err_digest err = Some (NEXT_DYNAMIC_NO_SSR_CODE W)));
    destruct (isNotFoundError W err); destruct (isRedirectError W err);
    try destruct (err_mutableCookies err) as [cookies|];
    try destruct (appendMutableCookies W cookies) as [[|] values];
    simp_state;
    repeat match goal with
           | |- context [if ?b then _ else _] => destruct b
           end;
    simp_state; rewrite ?List.filter_app, ?app_nil_r; reflexivity.
Qed.

Lemma renderErrorShell_warns cl tree0 formState is404 hasRedirectError :
  preserves (fun s => List.filter isWarnEvent (trace s))
            (renderErrorShell W cl tree0 formState is404 hasRedirectError).
Proof.
  unfold renderErrorShell, cloneTransformStream.
  repeat first [ trace_step W | progress unfold rethrowFinal ].
Qed.

(** X18: the deopted-into-client-rendering warning is logged exactly
    when the document render throws an error with the
    [NEXT_DYNAMIC_NO_SSR_CODE] digest that is not re-thrown as a bailout
    or postpone error, and once; such an error is not fatal to the
    recovery, which goes on to the status code and the error shell as for
    any other error. *)
Theorem deopt_warning (cl : Closure) (asNotFound : bool)
    (tree0 : LoaderTree) (formState : option nat) (s : State) :
  let props := documentProps cl asNotFound tree0 formState in
  let out := bodyResult W cl asNotFound tree0 formState s in
  List.filter isWarnEvent (trace (snd out)) =
  List.filter isWarnEvent (trace s)
  ++ match snd (rendererRender W props) with
     | Throw err =>
       if negb (isStaticGenBailout err) && negb (err_postpone err)
          && bool_decide (err_digest err = Some (NEXT_DYNAMIC_NO_SSR_CODE W))
       then [EvWarn] else []
     | Normal _ => []
     end.
Proof.
  intros props out. subst out.
  destruct (rendererRender W props) as [reports [[p|]|err]] eqn:Hrender; cbn [snd].
  - rewrite (bodyResult_render_postponed W _ _ _ _ _ _ _ Hrender). simp_state.
    rewrite List.filter_app. reflexivity.
  - rewrite (bodyResult_render_completes W _ _ _ _ _ _ Hrender).
    destruct (truthy _).
    + destruct (continuePostponedFizzStream W _ _) as [r [e|]]; simp_state;
        rewrite !List.filter_app; cbn [List.filter isWarnEvent]; rewrite !app_nil_r;
        reflexivity.
    + destruct (continueFizzStream W _ _) as [r [e|]]; simp_state;
        rewrite !List.filter_app; cbn [List.filter isWarnEvent]; rewrite !app_nil_r;
        reflexivity.
  - rewrite (bodyResult_render_throws W _ _ _ _ _ _ _ Hrender). fold props.
    set (s0 := reported W reports (logEvent (EvRender props) s)).
    assert (Hs0 : List.filter isWarnEvent (trace s0) = List.filter isWarnEvent (trace s))
      by (subst s0; simp_state; rewrite List.filter_app; cbn; apply app_nil_r).
    unfold recover.
    destruct (isStaticGenBailout err); cbn [negb andb].
    { cbn. rewrite app_nil_r. exact Hs0. }
    destruct (err_postpone err); cbn [negb andb].
    { run_M. simp_state. rewrite app_nil_r. exact Hs0. }
    unfold bindM. pose proof (setErrorStatus_warns cl err s0) as Hwarn.
    destruct (setErrorStatus_frame W cl err s0) as (flags & s1 & Hrun & _).
    rewrite Hrun in Hwarn |- *. cbn [snd] in Hwarn.
    rewrite (renderErrorShell_warns cl tree0 formState (fst flags) (snd flags) s1).
    rewrite Hwarn, Hs0. reflexivity.
Qed.

Lemma bodyResult_pageData cl asNotFound tree0 formState :
  preserves (fun s => md_pageData (extraRenderResultMeta s))
            (bodyResult W cl asNotFound tree0 formState).
Proof.
  unfold bodyResult, recover, setErrorStatus, renderErrorShell, cloneTransformStream.
  repeat first [ frame_step W | progress unfold rethrowFinal ].
Qed.

(** X19: when the action bridge reports that the action was not found,
    the document that is returned is the HTML stream of the not-found
    render as it is: it carries no pageData and is not materialised, in
    static generation either, and the captured errors are not looked
    at. *)
Theorem action_not_found_result (req : IncomingMessage) (pagePath0 : jsstring)
    (query : loc) (renderOpts : RenderOpts)
    (res0 : ServerResponse) (store0 : StaticGenerationStore) (heap0 : gmap loc QueryObject)
    (reports : Reports) (result : RenderResult) :
  let static := isStaticGeneration store0 in
  let ctx := appRenderContext W req pagePath0 (fresh (dom heap0)) renderOpts static in
  let out :=
    renderToHTMLOrFlightImpl W req pagePath0 query renderOpts (initialState res0 store0 heap0) in
  hasHeader req (toLowerCase (RSC W)) && negb static = false ->
  handleAction W req ctx = (reports, Normal (Some ActionNotFound)) ->
  fst out = Normal result ->
  (exists html, body result = HtmlBody html) /\
  md_pageData (metadata result) = None /\
  forall html, ~ In (EvUnchunk (HtmlBody html)) (trace (snd out)).
Proof.
  intros static ctx out Hnavigation Haction. subst out.
  rewrite renderToHTMLOrFlightImpl_run. cbn [initialState store heap].
  fold static. fold ctx. rewrite Hnavigation.
  set (s1 := withHeap _ _).
  assert (Hs1 : md_pageData (extraRenderResultMeta s1) = None /\
                htmlUnchunks (trace s1) = [])
    by (subst s1; destruct (enableTainting renderOpts); split; reflexivity).
  destruct Hs1 as (Hpage1 & Hhtml1). clearbody s1.
  set (eager := static || _).
  assert (Hpage2 : preserves (fun s => md_pageData (extraRenderResultMeta s))
                             (stringifyFlightPayload W ctx eager))
    by (unfold stringifyFlightPayload, generateFlight; destruct eager; frame W).
  specialize (Hpage2 s1). cbv beta in Hpage2.
  pose proof (stringifyFlightPayload_no_html W ctx eager s1) as Hhtml2. cbv beta in Hhtml2.
  destruct (stringifyFlightPayload_total W ctx eager s1) as [payload Hpayload].
  unfold bindM.
  destruct (stringifyFlightPayload W ctx eager s1) as [c s2]. cbn [fst snd] in *. subst c.
  unfold renderDocument, newTransformStream. rewrite Haction. run_M.
  set (s0 := reported W _ _).
  assert (Hs0 : md_pageData (extraRenderResultMeta s0) = None /\ htmlUnchunks (trace s0) = [])
    by (subst s0; simp_state; simp_events; split; congruence).
  destruct Hs0 as (Hpage0 & Hhtml0). clearbody s0.
  set (cl := Build_Closure _ _ _ _ _).
  pose proof (bodyResult_pageData cl true (createNotFoundLoaderTree (tree (ctx_renderOpts ctx)))
                None s0) as Hpage.
  pose proof (bodyResult_no_html W cl true (createNotFoundLoaderTree (tree (ctx_renderOpts ctx)))
                None s0) as Hhtml.
  cbv beta in Hpage, Hhtml.
  destruct (bodyResult W cl true _ None s0) as [[h|e] s3]; cbn [fst snd] in *; [|discriminate].
  intros [= <-]. cbn [body metadata]. split; [eexists; reflexivity|].
  split; [congruence|].
  intros html Hin. apply In_htmlUnchunks in Hin. rewrite Hhtml, Hhtml0 in Hin. destruct Hin.
Qed.


End Remaining.

Lemma action_not_found_result_witness :
  let W := sampleWorld ([], Normal None) None (Some ActionNotFound) (Normal []) ([], None) in
  let out :=
    renderToHTMLOrFlightImpl W (sampleRequest false) (js "/blog") 0%nat sampleRenderOpts
      (initialState sampleResponse (sampleStore true) ∅) in
  let result :=
    match fst out with
    | Normal r => r
    | Throw _ => {| body := ActionBody 0; metadata := emptyMetadata |}
    end in
  (exists html, body result = HtmlBody html) /\
  md_pageData (metadata result) = None /\
  forall html, ~ In (EvUnchunk (HtmlBody html)) (trace (snd out)).
Proof.
  intros W out result.
  apply (action_not_found_result W (sampleRequest false) (js "/blog") 0%nat sampleRenderOpts
           sampleResponse (sampleStore true) ∅ [] result); vm_compute; reflexivity.
Defined.


Lemma resolver_throws_on_ill_formed_values_only_witness :
  makeGetDynamicParamFromSegment sampleHelpers
    {[ js "path" := PArray [js "a"; [0xDC00]] ]} None (js "[...path]")
  = Throw URIError.
Proof.
  apply (proj2 (resolver_throws_on_ill_formed_values_only sampleHelpers
                  {[ js "path" := PArray [js "a"; [0xDC00]] ]} None (js "[...path]")
                  URIError)).
  split; [reflexivity|].
  exists (mkSegmentParam (js "path") (js "catchall")).
  split; [vm_compute; reflexivity|].
  replace (({[ js "path" := PArray [js "a"; [0xDC00]] ]} : gmap jsstring ParamValue)
             !! sp_param (mkSegmentParam (js "path") (js "catchall")))
    with (Some (PArray [js "a"; [0xDC00]])) by (vm_compute; reflexivity).
  apply Exists_cons_tl. apply Exists_cons_hd. reflexivity.
Defined.
